(** * Hathor explorer: the Tokens screen and the dashboard reducer

    A shallow embedding of

    - [src/components/token/Tokens.js], the Tokens listing screen whose
      search is started by its callbacks (module [Tokens]);
    - the revision of the same screen whose search is started by an effect
      keyed on [isSearchLoading] (module [TokensFx]);
    - the dashboard reducer [rootReducer] (module [Dashboard]);
    - the Wallet screen, its websocket handler and its lock button (module
      [Wallet]).

    A React function component is modelled as a record of its state hooks, a
    list of the requests that are in flight, and the observable calls it has
    made ([tokensApi.getList], [history.push]).  An async handler is split at
    its [await]: the part before it runs when the event arrives and leaves a
    continuation; the part after it runs when the request resolves.  Handlers
    read the state through the closure of the render that created them, so
    every handler takes that captured state as its first argument. *)

From Stdlib Require Import ZArith String List Bool Floats Lia.
From stdpp Require Import base option list strings gmap.
Import ListNotations.

Set Default Proof Using "Type".

(** ** Data received from the explorer service *)

(** One value of the [sort] array that the search backend attaches to a hit. *)
Inductive SortValue : Set :=
| SortNumber (n : Z)
| SortString (s : string).

(** The [searchAfter] cursor: an array of sort values, [[]] for "from the start". *)
Definition SearchAfter : Set := list SortValue.

(** A row.  [tk_uid] and [tk_nft] are absent on what the service sends and
    filled in by [getTokens]; [tk_sort] is absent when the service sends none. *)
Record Token : Set := mkToken {
  tk_id : string;
  tk_uid : option string;
  tk_nft : option bool;
  tk_sort : option SearchAfter;
}.

Record ApiTokens : Set := mkApiTokens {
  hits : list Token;
  has_next : bool;
}.

(** What [tokensApi.getList] resolves to. *)
Record ApiResponse : Set := mkApiResponse {
  resp_error : option bool;
  resp_data : option ApiTokens;
}.

(** The arguments of one [tokensApi.getList] call. *)
Record GetListCall : Set := mkGetList {
  gl_searchText : string;
  gl_sortBy : string;
  gl_order : string;
  gl_searchAfter : SearchAfter;
}.

(** The object handed to [pagination.current.setURLParameters]. *)
Record URLParameters : Set := mkURL {
  url_searchText : string;
  url_sortBy : string;
  url_order : string;
}.

(** One element of [pageSearchAfter]. *)
Record PageEntry : Set := mkEntry {
  pe_page : Z;
  pe_searchAfter : SearchAfter;
}.

(** ** lodash *)

(** [get(object, path, defaultValue)] on a field that may be absent. *)
Definition get {A} (field : option A) (defaultValue : A) : A :=
  match field with Some v => v | None => defaultValue end.

(** [find(pageSearchAfter, { page })]: the first entry of that page. *)
Definition find_page (p : Z) (entries : list PageEntry) : option PageEntry :=
  List.find (fun e => (pe_page e =? p)%Z) entries.

(** [isEmpty] on an array. *)
Definition isEmpty {A} (l : list A) : bool :=
  match l with [] => true | _ :: _ => false end.

(** [get(find(pageSearchAfter, { page }), 'searchAfter', [])]. *)
Definition cachedSearchAfter (p : Z) (entries : list PageEntry) : SearchAfter :=
  get (pe_searchAfter <$> find_page p entries) [].

(** [get(last(tokens), 'sort', [])]. *)
Definition lastCurrentTokenSort (tokens : list Token) : SearchAfter :=
  get (last tokens ≫= tk_sort) [].

(** JavaScript [a || b] where [a] may be null or undefined and the empty
    string is falsy. *)
Definition js_or (a : option string) (b : string) : string :=
  match a with
  | Some s => if String.eqb s "" then b else s
  | None => b
  end.

(** ** The state hooks of the component *)

Record State : Set := mkState {
  tokens : list Token;
  hasAfter : bool;
  hasBefore : bool;
  searchText : string;
  sortBy : string;
  order : string;
  page : Z;
  pageSearchAfter : list PageEntry;
  isLoading : bool;
  isSearchLoading : bool;
  calculatingPage : bool;
  error : bool;
}.

(** The arguments of the [useState] calls. *)
Definition initialState : State :=
  {| tokens := []; hasAfter := false; hasBefore := false;
     searchText := ""; sortBy := "transaction_timestamp"; order := "desc";
     page := 1; pageSearchAfter := [];
     isLoading := false; isSearchLoading := false; calculatingPage := false;
     error := false |}.

Definition setTokens (v : list Token) (s : State) : State :=
  mkState v (hasAfter s) (hasBefore s) (searchText s) (sortBy s) (order s) (page s)
    (pageSearchAfter s) (isLoading s) (isSearchLoading s) (calculatingPage s) (error s).
Definition setHasAfter (v : bool) (s : State) : State :=
  mkState (tokens s) v (hasBefore s) (searchText s) (sortBy s) (order s) (page s)
    (pageSearchAfter s) (isLoading s) (isSearchLoading s) (calculatingPage s) (error s).
Definition setHasBefore (v : bool) (s : State) : State :=
  mkState (tokens s) (hasAfter s) v (searchText s) (sortBy s) (order s) (page s)
    (pageSearchAfter s) (isLoading s) (isSearchLoading s) (calculatingPage s) (error s).
Definition setSearchText (v : string) (s : State) : State :=
  mkState (tokens s) (hasAfter s) (hasBefore s) v (sortBy s) (order s) (page s)
    (pageSearchAfter s) (isLoading s) (isSearchLoading s) (calculatingPage s) (error s).
Definition setSortBy (v : string) (s : State) : State :=
  mkState (tokens s) (hasAfter s) (hasBefore s) (searchText s) v (order s) (page s)
    (pageSearchAfter s) (isLoading s) (isSearchLoading s) (calculatingPage s) (error s).
Definition setOrder (v : string) (s : State) : State :=
  mkState (tokens s) (hasAfter s) (hasBefore s) (searchText s) (sortBy s) v (page s)
    (pageSearchAfter s) (isLoading s) (isSearchLoading s) (calculatingPage s) (error s).
Definition setPage (v : Z) (s : State) : State :=
  mkState (tokens s) (hasAfter s) (hasBefore s) (searchText s) (sortBy s) (order s) v
    (pageSearchAfter s) (isLoading s) (isSearchLoading s) (calculatingPage s) (error s).
Definition setPageSearchAfter (v : list PageEntry) (s : State) : State :=
  mkState (tokens s) (hasAfter s) (hasBefore s) (searchText s) (sortBy s) (order s) (page s)
    v (isLoading s) (isSearchLoading s) (calculatingPage s) (error s).
Definition setIsLoading (v : bool) (s : State) : State :=
  mkState (tokens s) (hasAfter s) (hasBefore s) (searchText s) (sortBy s) (order s) (page s)
    (pageSearchAfter s) v (isSearchLoading s) (calculatingPage s) (error s).
Definition setIsSearchLoading (v : bool) (s : State) : State :=
  mkState (tokens s) (hasAfter s) (hasBefore s) (searchText s) (sortBy s) (order s) (page s)
    (pageSearchAfter s) (isLoading s) v (calculatingPage s) (error s).
Definition setCalculatingPage (v : bool) (s : State) : State :=
  mkState (tokens s) (hasAfter s) (hasBefore s) (searchText s) (sortBy s) (order s) (page s)
    (pageSearchAfter s) (isLoading s) (isSearchLoading s) v (error s).
Definition setError (v : bool) (s : State) : State :=
  mkState (tokens s) (hasAfter s) (hasBefore s) (searchText s) (sortBy s) (order s) (page s)
    (pageSearchAfter s) (isLoading s) (isSearchLoading s) (calculatingPage s) v.

(** ** The mounted component *)

(** What a handler still has to do once its [getTokens] call resolves; the
    arguments are the values its closure computed before the [await]. *)
Inductive Continuation : Set :=
| AwaitSearch (url : option URLParameters) (initialQuery : bool)
| AwaitNextPage (nextPage : Z)
| AwaitPreviousPage (previousPage : Z).

Record Screen : Set := mkScreen {
  st : State;                       (* the state hooks *)
  inflight : list Continuation;     (* getList promises not yet settled *)
  calls : list GetListCall;         (* every tokensApi.getList call, oldest first *)
  history : list URLParameters;     (* every history.push, oldest first *)
}.

Definition initialScreen : Screen :=
  {| st := initialState; inflight := []; calls := []; history := [] |}.

(** A state setter call. *)
Definition update (f : State -> State) (w : Screen) : Screen :=
  mkScreen (f (st w)) (inflight w) (calls w) (history w).

(** [tokensApi.getList(...)] followed by an [await] that leaves [k]. *)
Definition getList (c : GetListCall) (k : Continuation) (w : Screen) : Screen :=
  mkScreen (st w) (inflight w ++ [k]) (calls w ++ [c]) (history w).

(** [history.push(pagination.current.setURLParameters(u))]. *)
Definition history_push (u : URLParameters) (w : Screen) : Screen :=
  mkScreen (st w) (inflight w) (calls w) (history w ++ [u]).

(** The promise at position [i] of [inflight] is settled. *)
Definition settle (i : nat) (w : Screen) : Screen :=
  mkScreen (st w) (delete i (inflight w)) (calls w) (history w).

(** Statements run in order. *)
Definition block (statements : list (Screen -> Screen)) (w : Screen) : Screen :=
  fold_left (fun w' f => f w') statements w.

(** ** What the component renders *)

Inductive SearchFieldView : Set :=
| UnderMaintenance
| TokenSearchField (searchText : string) (isSearchLoading loading : bool).

Inductive TokensTableView : Set :=
| NoTable
| ErrorLoadingTokens
| TokensTable (data : list Token) (hasBefore hasAfter loading : bool)
    (sortBy order : string) (calculatingPage : bool).

(** ** What can happen to a mounted component *)

Inductive Event : Set :=
| SearchTextChanged (value : string)
| SearchTextKeyUp (key : string)
| SearchButtonClicked (newSearchText newSortBy newOrder : option string)
| NextPageClicked
| PreviousPageClicked
| TableHeaderClicked (headerName : string)
| Resolved (i : nat) (tokensRequest : ApiResponse)
| Rejected (i : nat).

(** The callbacks are props of [TokenSearchField] and [TokensTable]: an event
    can only come from a child that is rendered, and a promise can only settle
    while it is in flight. *)
Definition offered (field : SearchFieldView) (table : TokensTableView)
    (pending : list Continuation) (e : Event) : bool :=
  match e with
  | SearchTextChanged _ | SearchTextKeyUp _ | SearchButtonClicked _ _ _ =>
      match field with TokenSearchField _ _ _ => true | UnderMaintenance => false end
  | NextPageClicked | PreviousPageClicked | TableHeaderClicked _ =>
      match table with TokensTable _ _ _ _ _ _ _ => true | _ => false end
  | Resolved i _ | Rejected i => bool_decide (i < length pending)
  end.

(** The body of [getTokens] after its [await]: the rows with [uid] and [nft]
    filled in. *)
Definition getTokens_rows (tokensRequest : ApiResponse) : ApiTokens :=
  let apiTokens := get (resp_data tokensRequest) {| hits := []; has_next := false |} in
  {| hits := map (fun token =>
                    {| tk_id := tk_id token;
                       tk_uid := Some (tk_id token);
                       tk_nft := Some (get (tk_nft token) false);
                       tk_sort := tk_sort token |}) (hits apiTokens);
     has_next := has_next apiTokens |}.

(** [setError(get(tokensRequest, 'error', false))]. *)
Definition getTokens_setError (tokensRequest : ApiResponse) : Screen -> Screen :=
  update (setError (get (resp_error tokensRequest) false)).

(** ** [Tokens.js]: the search is started by the callbacks *)

Module Tokens.

(** [getTokens(searchAfter)] up to its [await]: the query is read from the
    closure, not passed in. *)
Definition getTokens (c : State) (searchAfter : SearchAfter) (k : Continuation)
    : Screen -> Screen :=
  getList {| gl_searchText := searchText c; gl_sortBy := sortBy c;
             gl_order := order c; gl_searchAfter := searchAfter |} k.

Definition updateURL (newSearchText newSortBy newOrder : string) : Screen -> Screen :=
  history_push {| url_searchText := newSearchText; url_sortBy := newSortBy;
                  url_order := newOrder |}.

(** [onSearchButtonClicked(newSearchText, newSortBy, newOrder)] up to the
    [await].  [initialQuery] tells that the caller is [executeInitialQuery]. *)
Definition onSearchButtonClicked (c : State)
    (newSearchText newSortBy newOrder : option string) (initialQuery : bool)
    : Screen -> Screen :=
  block [
    update (setIsSearchLoading true);
    getTokens c []
      (AwaitSearch (Some {| url_searchText := js_or newSearchText (searchText c);
                            url_sortBy := js_or newSortBy (sortBy c);
                            url_order := js_or newOrder (order c) |}) initialQuery)
  ].

(** ... and after it.  The last statement is the one of
    [executeInitialQuery] that follows its own [await]. *)
Definition onSearchButtonClicked_resumed (url : option URLParameters)
    (initialQuery : bool) (tokensRequest : ApiResponse) : Screen -> Screen :=
  let gottenTokens := getTokens_rows tokensRequest in
  block [
    getTokens_setError tokensRequest;
    update (setIsSearchLoading false);
    update (setPage 1);
    update (setTokens (hits gottenTokens));
    update (setHasAfter (has_next gottenTokens));
    update (setHasBefore false);
    update (setPageSearchAfter [ {| pe_page := 1; pe_searchAfter := [] |} ]);
    match url with
    | Some u => updateURL (url_searchText u) (url_sortBy u) (url_order u)
    | None => fun w => w
    end;
    if initialQuery then update (setIsLoading false) else fun w => w
  ].

(** The mount effect.  [queryParams] is the object returned by
    [pagination.current.obtainQueryParams()] ([utils/pagination] is not part
    of the sources): a finite map from parameter name to value, a parameter
    missing from the URL being a missing key. *)
Definition mountEffect (maintenanceMode : bool) (queryParams : gmap string string)
    (c : State) : Screen -> Screen :=
  if maintenanceMode then fun w => w
  else
    let newSearchText := get (queryParams !! "searchText") (searchText c) in
    let newSortBy := get (queryParams !! "sortBy") (sortBy c) in
    let newOrder := get (queryParams !! "order") (order c) in
    block [
      update (setSearchText newSearchText);
      update (setSortBy newSortBy);
      update (setOrder newOrder);
      update (setIsLoading false);
      onSearchButtonClicked c (Some newSearchText) (Some newSortBy) (Some newOrder) true
    ].

Definition onSearchTextChanged (value : string) : Screen -> Screen :=
  update (setSearchText value).

Definition onSearchTextKeyUp (c : State) (key : string) : Screen -> Screen :=
  if String.eqb key "Enter" then onSearchButtonClicked c None None None false
  else fun w => w.

Definition nextPageClicked (c : State) : Screen -> Screen :=
  let nextPage := (page c + 1)%Z in
  let searchAfter := cachedSearchAfter nextPage (pageSearchAfter c) in
  if isEmpty searchAfter then
    let lastCurrentTokenSort := lastCurrentTokenSort (tokens c) in
    let newEntry := {| pe_page := nextPage; pe_searchAfter := lastCurrentTokenSort |} in
    block [
      update (setCalculatingPage true);
      update (setPageSearchAfter (pageSearchAfter c ++ [newEntry]));
      getTokens c lastCurrentTokenSort (AwaitNextPage nextPage)
    ]
  else
    block [
      update (setCalculatingPage true);
      getTokens c searchAfter (AwaitNextPage nextPage)
    ].

Definition nextPageClicked_resumed (nextPage : Z) (tokensRequest : ApiResponse)
    : Screen -> Screen :=
  let gottenTokens := getTokens_rows tokensRequest in
  block [
    getTokens_setError tokensRequest;
    update (setTokens (hits gottenTokens));
    update (setHasAfter (has_next gottenTokens));
    update (setHasBefore true);
    update (setPage nextPage);
    update (setCalculatingPage false)
  ].

Definition previousPageClicked (c : State) : Screen -> Screen :=
  let previousPage := (page c - 1)%Z in
  let searchAfter := cachedSearchAfter previousPage (pageSearchAfter c) in
  block [
    update (setCalculatingPage true);
    getTokens c searchAfter (AwaitPreviousPage previousPage)
  ].

Definition previousPageClicked_resumed (previousPage : Z) (tokensRequest : ApiResponse)
    : Screen -> Screen :=
  let gottenTokens := getTokens_rows tokensRequest in
  block [
    getTokens_setError tokensRequest;
    update (setTokens (hits gottenTokens));
    update (setHasAfter true);
    update (setHasBefore (negb (previousPage =? 1)%Z));
    update (setPage previousPage);
    update (setCalculatingPage false)
  ].

Definition tableHeaderClicked (c : State) (headerName : string) : Screen -> Screen :=
  if String.eqb headerName (sortBy c) then
    let newOrder := if String.eqb (order c) "asc" then "desc" else "asc" in
    block [
      update (setOrder newOrder);
      onSearchButtonClicked c None (Some headerName) (Some newOrder) false
    ]
  else
    let newOrder := "asc" in
    block [
      update (setSortBy headerName);
      update (setOrder newOrder);
      onSearchButtonClicked c None (Some headerName) (Some newOrder) false
    ].

Definition renderSearchField (maintenanceMode : bool) (s : State) : SearchFieldView :=
  if maintenanceMode then UnderMaintenance
  else TokenSearchField (searchText s) (isSearchLoading s) (isLoading s).

Definition renderTokensTable (maintenanceMode : bool) (s : State) : TokensTableView :=
  if maintenanceMode then NoTable
  else if error s then ErrorLoadingTokens
  else TokensTable (tokens s) (hasBefore s) (hasAfter s) (isLoading s)
         (sortBy s) (order s) (calculatingPage s).

(** The continuation of a settled promise. *)
Definition resume (k : Continuation) (tokensRequest : ApiResponse) : Screen -> Screen :=
  match k with
  | AwaitSearch url initialQuery => onSearchButtonClicked_resumed url initialQuery tokensRequest
  | AwaitNextPage nextPage => nextPageClicked_resumed nextPage tokensRequest
  | AwaitPreviousPage previousPage => previousPageClicked_resumed previousPage tokensRequest
  end.

(** The handler of an event, run with the closure of the current render. *)
Definition handle (w : Screen) (e : Event) : Screen :=
  let c := st w in
  match e with
  | SearchTextChanged value => onSearchTextChanged value w
  | SearchTextKeyUp key => onSearchTextKeyUp c key w
  | SearchButtonClicked a b o => onSearchButtonClicked c a b o false w
  | NextPageClicked => nextPageClicked c w
  | PreviousPageClicked => previousPageClicked c w
  | TableHeaderClicked headerName => tableHeaderClicked c headerName w
  | Resolved i tokensRequest =>
      match inflight w !! i with
      | Some k => resume k tokensRequest (settle i w)
      | None => w
      end
  | Rejected i => settle i w
  end.

Definition enabled (maintenanceMode : bool) (w : Screen) (e : Event) : bool :=
  offered (renderSearchField maintenanceMode (st w))
          (renderTokensTable maintenanceMode (st w)) (inflight w) e.

(** An event that cannot occur leaves the component as it is. *)
Definition step (maintenanceMode : bool) (w : Screen) (e : Event) : Screen :=
  if enabled maintenanceMode w e then handle w e else w.

(** The component after its first render and its mount effect. *)
Definition mounted (maintenanceMode : bool) (queryParams : gmap string string) : Screen :=
  mountEffect maintenanceMode queryParams initialState initialScreen.

End Tokens.

(** ** The revision whose search is started by an effect *)

Module TokensFx.

(** [getTokens(searchAfter, newSearchText, newSortBy, newOrder)] up to its
    [await]: the query is passed in. *)
Definition getTokens (searchAfter : SearchAfter) (newSearchText newSortBy newOrder : string)
    (k : Continuation) : Screen -> Screen :=
  getList {| gl_searchText := newSearchText; gl_sortBy := newSortBy;
             gl_order := newOrder; gl_searchAfter := searchAfter |} k.

(** The mount effect; [queryParams] as in [Tokens.mountEffect]. *)
Definition mountEffect (maintenanceMode : bool) (queryParams : gmap string string)
    : Screen -> Screen :=
  if maintenanceMode then fun w => w
  else
    block [
      update (setSearchText (get (queryParams !! "searchText") ""));
      update (setSortBy (get (queryParams !! "sortBy") ""));
      update (setOrder (get (queryParams !! "order") ""));
      update (setIsLoading false);
      update (setIsSearchLoading true)
    ].

(** The effect on [isSearchLoading, searchText, sortBy, order], up to the
    [then] of its promise. *)
Definition searchEffect (c : State) : Screen -> Screen :=
  if negb (isSearchLoading c) then fun w => w
  else
    block [
      history_push {| url_searchText := js_or (Some (searchText c)) "";
                      url_sortBy := js_or (Some (sortBy c)) "";
                      url_order := js_or (Some (order c)) "" |};
      getTokens [] (searchText c) (sortBy c) (order c) (AwaitSearch None false)
    ].

(** The [then] callback of that promise. *)
Definition searchEffect_resumed (tokensRequest : ApiResponse) : Screen -> Screen :=
  let apiTokens := getTokens_rows tokensRequest in
  block [
    getTokens_setError tokensRequest;
    update (setIsSearchLoading false);
    update (setPage 1);
    update (setTokens (hits apiTokens));
    update (setHasAfter (has_next apiTokens));
    update (setHasBefore false);
    update (setPageSearchAfter [ {| pe_page := 1; pe_searchAfter := [] |} ])
  ].

Definition onSearchButtonClicked : Screen -> Screen :=
  update (setIsSearchLoading true).

Definition onSearchTextChanged (value : string) : Screen -> Screen :=
  update (setSearchText value).

Definition onSearchTextKeyUp (key : string) : Screen -> Screen :=
  if String.eqb key "Enter" then update (setIsSearchLoading true) else fun w => w.

Definition nextPageClicked (c : State) : Screen -> Screen :=
  let nextPage := (page c + 1)%Z in
  let searchAfter := cachedSearchAfter nextPage (pageSearchAfter c) in
  if isEmpty searchAfter then
    let lastCurrentTokenSort := lastCurrentTokenSort (tokens c) in
    let newEntry := {| pe_page := nextPage; pe_searchAfter := lastCurrentTokenSort |} in
    block [
      update (setCalculatingPage true);
      update (setPageSearchAfter (pageSearchAfter c ++ [newEntry]));
      getTokens lastCurrentTokenSort (searchText c) (sortBy c) (order c)
        (AwaitNextPage nextPage)
    ]
  else
    block [
      update (setCalculatingPage true);
      getTokens searchAfter (searchText c) (sortBy c) (order c) (AwaitNextPage nextPage)
    ].

Definition nextPageClicked_resumed (nextPage : Z) (tokensRequest : ApiResponse)
    : Screen -> Screen :=
  let gottenTokens := getTokens_rows tokensRequest in
  block [
    getTokens_setError tokensRequest;
    update (setTokens (hits gottenTokens));
    update (setHasAfter (has_next gottenTokens));
    update (setHasBefore true);
    update (setPage nextPage);
    update (setCalculatingPage false)
  ].

Definition previousPageClicked (c : State) : Screen -> Screen :=
  let previousPage := (page c - 1)%Z in
  let searchAfter := cachedSearchAfter previousPage (pageSearchAfter c) in
  block [
    update (setCalculatingPage true);
    getTokens searchAfter (searchText c) (sortBy c) (order c)
      (AwaitPreviousPage previousPage)
  ].

Definition previousPageClicked_resumed (previousPage : Z) (tokensRequest : ApiResponse)
    : Screen -> Screen :=
  let gottenTokens := getTokens_rows tokensRequest in
  block [
    getTokens_setError tokensRequest;
    update (setTokens (hits gottenTokens));
    update (setHasAfter true);
    update (setHasBefore (negb (previousPage =? 1)%Z));
    update (setPage previousPage);
    update (setCalculatingPage false)
  ].

Definition tableHeaderClicked (c : State) (headerName : string) : Screen -> Screen :=
  if String.eqb headerName (sortBy c) then
    let newOrder := if String.eqb (order c) "asc" then "desc" else "asc" in
    block [
      update (setOrder newOrder);
      update (setIsSearchLoading true)
    ]
  else
    let newOrder := "asc" in
    block [
      update (setSortBy headerName);
      update (setOrder newOrder);
      update (setIsSearchLoading true)
    ].

Definition renderSearchField (maintenanceMode : bool) (s : State) : SearchFieldView :=
  if maintenanceMode then UnderMaintenance
  else TokenSearchField (searchText s) (isSearchLoading s) (isLoading s).

Definition renderTokensTable (maintenanceMode : bool) (s : State) : TokensTableView :=
  if maintenanceMode then NoTable
  else if error s then ErrorLoadingTokens
  else TokensTable (tokens s) (hasBefore s) (hasAfter s) (isLoading s)
         (sortBy s) (order s) (calculatingPage s).

Definition resume (k : Continuation) (tokensRequest : ApiResponse) : Screen -> Screen :=
  match k with
  | AwaitSearch _ _ => searchEffect_resumed tokensRequest
  | AwaitNextPage nextPage => nextPageClicked_resumed nextPage tokensRequest
  | AwaitPreviousPage previousPage => previousPageClicked_resumed previousPage tokensRequest
  end.

Definition handle (w : Screen) (e : Event) : Screen :=
  let c := st w in
  match e with
  | SearchTextChanged value => onSearchTextChanged value w
  | SearchTextKeyUp key => onSearchTextKeyUp key w
  | SearchButtonClicked _ _ _ => onSearchButtonClicked w
  | NextPageClicked => nextPageClicked c w
  | PreviousPageClicked => previousPageClicked c w
  | TableHeaderClicked headerName => tableHeaderClicked c headerName w
  | Resolved i tokensRequest =>
      match inflight w !! i with
      | Some k => resume k tokensRequest (settle i w)
      | None => w
      end
  | Rejected i => settle i w
  end.

(** The dependency array of the search effect as seen by two renders
    ([getTokens] and [history] never change). *)
Definition sameDeps (before after : State) : bool :=
  Bool.eqb (isSearchLoading before) (isSearchLoading after)
  && String.eqb (searchText before) (searchText after)
  && String.eqb (sortBy before) (sortBy after)
  && String.eqb (order before) (order after).

(** The render that follows a handler: the search effect runs again, with
    the new closure, when one of its dependencies has changed. *)
Definition rerender (before : State) (w : Screen) : Screen :=
  if sameDeps before (st w) then w else searchEffect (st w) w.

Definition enabled (maintenanceMode : bool) (w : Screen) (e : Event) : bool :=
  offered (renderSearchField maintenanceMode (st w))
          (renderTokensTable maintenanceMode (st w)) (inflight w) e.

Definition step (maintenanceMode : bool) (w : Screen) (e : Event) : Screen :=
  if enabled maintenanceMode w e then rerender (st w) (handle w e) else w.

(** The component after its first render, the effects of that render (the
    search effect sees [isSearchLoading = false] there), and the render that
    the mount effect causes. *)
Definition mounted (maintenanceMode : bool) (queryParams : gmap string string) : Screen :=
  rerender initialState
    (searchEffect initialState (mountEffect maintenanceMode queryParams initialScreen)).

End TokensFx.

(** ** Both revisions as one machine *)

Inductive Revision : Set := Callbacks | Effects.

Definition step (rev : Revision) : bool -> Screen -> Event -> Screen :=
  match rev with Callbacks => Tokens.step | Effects => TokensFx.step end.

Definition mounted (rev : Revision) : bool -> gmap string string -> Screen :=
  match rev with Callbacks => Tokens.mounted | Effects => TokensFx.mounted end.

Definition enabled (rev : Revision) : bool -> Screen -> Event -> bool :=
  match rev with Callbacks => Tokens.enabled | Effects => TokensFx.enabled end.

Definition renderSearchField (rev : Revision) : bool -> State -> SearchFieldView :=
  match rev with
  | Callbacks => Tokens.renderSearchField
  | Effects => TokensFx.renderSearchField
  end.

Definition renderTokensTable (rev : Revision) : bool -> State -> TokensTableView :=
  match rev with
  | Callbacks => Tokens.renderTokensTable
  | Effects => TokensFx.renderTokensTable
  end.

Definition run (rev : Revision) (maintenanceMode : bool) (w : Screen) (events : list Event)
    : Screen :=
  fold_left (step rev maintenanceMode) events w.

(** A click whose request resolves before anything else happens. *)
Definition click (rev : Revision) (maintenanceMode : bool) (e : Event)
    (tokensRequest : ApiResponse) (w : Screen) : Screen :=
  step rev maintenanceMode (step rev maintenanceMode w e) (Resolved 0 tokensRequest).

Definition isSearch (k : Continuation) : bool :=
  match k with AwaitSearch _ _ => true | _ => false end.

(** ** Sequential use of the screen *)

(** [forward rev m w shown]: [w] is what the screen is after a search has
    completed and the user has then only clicked "next", every request
    resolving before the following click.  [shown] lists the result sets that
    were displayed, that of page 1 first. *)
Inductive forward (rev : Revision) (maintenanceMode : bool)
    : Screen -> list (list Token) -> Prop :=
| forward_search w k tokensRequest w' :
    inflight w = [k] ->
    isSearch k = true ->
    w' = step rev maintenanceMode w (Resolved 0 tokensRequest) ->
    forward rev maintenanceMode w' [tokens (st w')]
| forward_next w shown tokensRequest w' :
    forward rev maintenanceMode w shown ->
    enabled rev maintenanceMode w NextPageClicked = true ->
    w' = click rev maintenanceMode NextPageClicked tokensRequest w ->
    forward rev maintenanceMode w' (shown ++ [tokens (st w')]).

(** [browsing rev m w]: as [forward], with "previous" clicks and typing in
    the search field allowed as well. *)
Inductive browsing (rev : Revision) (maintenanceMode : bool) : Screen -> Prop :=
| browsing_search w k tokensRequest :
    inflight w = [k] ->
    isSearch k = true ->
    browsing rev maintenanceMode (step rev maintenanceMode w (Resolved 0 tokensRequest))
| browsing_next w tokensRequest :
    browsing rev maintenanceMode w ->
    enabled rev maintenanceMode w NextPageClicked = true ->
    browsing rev maintenanceMode (click rev maintenanceMode NextPageClicked tokensRequest w)
| browsing_previous w tokensRequest :
    browsing rev maintenanceMode w ->
    enabled rev maintenanceMode w PreviousPageClicked = true ->
    browsing rev maintenanceMode
      (click rev maintenanceMode PreviousPageClicked tokensRequest w)
| browsing_typing w value :
    browsing rev maintenanceMode w ->
    browsing rev maintenanceMode (step rev maintenanceMode w (SearchTextChanged value)).

(** The events by which the user asks for a new query. *)
Definition isQueryChange (e : Event) : bool :=
  match e with
  | SearchButtonClicked _ _ _ | TableHeaderClicked _ => true
  | SearchTextKeyUp key => String.eqb key "Enter"
  | _ => false
  end.

(** What a resolved request leaves in the state, whatever the handler. *)
Record Settled (w w' : Screen) (tokensRequest : ApiResponse) : Prop := {
  settled_inflight : inflight w' = tail (inflight w);
  settled_calls : calls w' = calls w;
  settled_error : error (st w') = get (resp_error tokensRequest) false;
  settled_tokens : tokens (st w') = hits (getTokens_rows tokensRequest);
  settled_searchText : searchText (st w') = searchText (st w);
  settled_sortBy : sortBy (st w') = sortBy (st w);
  settled_order : order (st w') = order (st w);
}.

(** ** Sample traffic, to run the definitions on *)

Module Sample.

Definition row (id : string) (n : Z) : Token :=
  {| tk_id := id; tk_uid := None; tk_nft := None;
     tk_sort := Some [SortNumber n; SortString id] |}.

Definition found (rows : list Token) (more : bool) : ApiResponse :=
  {| resp_error := None; resp_data := Some {| hits := rows; has_next := more |} |}.

Definition failed : ApiResponse :=
  {| resp_error := Some true; resp_data := None |}.

Definition firstPage : ApiResponse := found [row "00a1" 30; row "00b2" 20] true.
Definition secondPage : ApiResponse := found [row "00c3" 10] false.

(** Twenty rows [a] ... [t], sorted by decreasing number. *)
Definition twentyRows : list Token :=
  map (fun i => row (String (Ascii.ascii_of_nat (97 + i)) "") (100 - Z.of_nat i))
      (seq 0 20).

Definition noParams : gmap string string := ∅.
Definition sharedLink : gmap string string :=
  {[ "sortBy" := "name"; "order" := "asc" ]}.

(** Page 1 of a search is on display. *)
Definition loaded (rev : Revision) : Screen :=
  step rev false (mounted rev false noParams) (Resolved 0 firstPage).

(** ... then "next" was clicked and page 2 is on display. *)
Definition onSecond (rev : Revision) : Screen :=
  click rev false NextPageClicked secondPage (loaded rev).

Definition shownTwo : list (list Token) :=
  [hits (getTokens_rows firstPage); hits (getTokens_rows secondPage)].

(** The first request failed. *)
Definition afterFailure (rev : Revision) : Screen :=
  step rev false (mounted rev false noParams) (Resolved 0 failed).

(** ... and the user has clicked the search button. *)
Definition searchingAgain (rev : Revision) : Screen :=
  step rev false (afterFailure rev) (SearchButtonClicked None None None).

(** The first answer had no row although the service announced more; the
    user went to page 2, came back, and page 1 now shows [firstPage]. *)
Definition revisited (rev : Revision) : Screen :=
  run rev false (mounted rev false noParams)
    [Resolved 0 (found [] true); NextPageClicked; Resolved 0 secondPage;
     PreviousPageClicked; Resolved 0 firstPage].

End Sample.

(** ** The dashboard reducer *)

Module Dashboard.

(** An element of the [data] list.  On the payload of an action [date] and
    [txRate] are not set yet; the reducer sets them.  [date] holds the number
    given to [new Date]. *)
Record Sample : Set := mkSample {
  date : option float;
  transactions : float;
  blocks : float;
  hash_rate : float;
  peers : float;
  txRate : option float;
  time : float;
}.

Record State : Set := mkState { data : list Sample }.

Inductive Action : Set :=
| dashboard_update (payload : Sample)
| other_action.

Definition initialState : State := {| data := [] |}.

Definition setDate (v : option float) (s : Sample) : Sample :=
  mkSample v (transactions s) (blocks s) (hash_rate s) (peers s) (txRate s) (time s).
Definition setTxRate (v : option float) (s : Sample) : Sample :=
  mkSample (date s) (transactions s) (blocks s) (hash_rate s) (peers s) v (time s).

(** [Math.max(a, b)]: NaN if either is NaN, and [+0] is larger than [-0]. *)
Definition Math_max (a b : float) : float :=
  if is_nan a || is_nan b then nan
  else if (a <? b)%float then b
  else if (b <? a)%float then a
  else if is_zero a && get_sign a then b
  else a.

(** [array[i]] for an integer [i]: undefined outside the array. *)
Definition index {A} (array : list A) (i : Z) : option A :=
  if (i <? 0)%Z then None else array !! Z.to_nat i.

(** [array.shift()]. *)
Definition shift {A} (array : list A) : list A := tail array.

(** A number with a value: neither NaN nor an infinity, and not below zero. *)
Definition nonNegativeFinite (x : option float) : bool :=
  match x with
  | Some r => is_finite r && (0 <=? r)%float
  | None => false
  end.

(** A number below zero (NaN is not). *)
Definition belowZero (x : option float) : bool :=
  match x with
  | Some r => (r <? 0)%float
  | None => false
  end.

Section Reducer.

(** The constant imported from [../constants], which is not part of the
    sources. *)
Variable DASHBOARD_CHART_TIME : Z.

(** [None] stands for the [TypeError] of reading [time] from [undefined]. *)
Definition rootReducer (state : State) (action : Action) : option State :=
  match action with
  | dashboard_update payload =>
      let newData := setDate (Some (time payload * 1000)%float) payload in
      let data := data state ++ [newData] in
      let data :=
        if (DASHBOARD_CHART_TIME <? Z.of_nat (length data))%Z then shift data else data in
      (* [newData] is the last element of [data]: assigning to it shows there *)
      let assign r := Some {| data := <[pred (length data) := setTxRate r newData]> data |} in
      if (Z.of_nat (length data) =? 1)%Z then assign (Some 0%float)
      else
        match index data (Z.of_nat (length data) - 2) with
        | None => None
        | Some beforeLastData =>
            let timeDiff := (time beforeLastData - time newData)%float in
            let txDiff := (transactions beforeLastData - transactions newData)%float in
            if (timeDiff =? 0)%float then assign (txRate beforeLastData)
            else assign (Some (Math_max 0 (txDiff / timeDiff)))
        end
  | other_action => Some state
  end.

End Reducer.

End Dashboard.

(** ** Sample metrics, to run the reducer on *)

Module Ticks.

Definition tick (time transactions : float) : Dashboard.Sample :=
  {| Dashboard.date := None; Dashboard.transactions := transactions;
     Dashboard.blocks := 0; Dashboard.hash_rate := 0; Dashboard.peers := 0;
     Dashboard.txRate := None; Dashboard.time := time |}.

(** A first sample at time 0, then two more transactions one smallest
    positive double later. *)
Definition first : Dashboard.Sample := tick 0 0.
Definition second : Dashboard.Sample := tick 0x1p-1074 2.

Definition afterFirst : Dashboard.State :=
  {| Dashboard.data :=
       [ Dashboard.setTxRate (Some 0%float) (Dashboard.setDate (Some 0%float) first) ] |}.

End Ticks.

(** ** The store after several actions *)

Module DashboardStore.

(** The reducer run over a list of actions, oldest first; [None] once one
    of them throws. *)
Fixpoint dispatchAll (DASHBOARD_CHART_TIME : Z) (state : Dashboard.State)
    (actions : list Dashboard.Action) : option Dashboard.State :=
  match actions with
  | [] => Some state
  | action :: rest =>
      match Dashboard.rootReducer DASHBOARD_CHART_TIME state action with
      | Some state' => dispatchAll DASHBOARD_CHART_TIME state' rest
      | None => None
      end
  end.

Definition isUpdate (action : Dashboard.Action) : bool :=
  match action with
  | Dashboard.dashboard_update _ => true
  | Dashboard.other_action => false
  end.

End DashboardStore.

(** ** The Wallet screen *)

Module Wallet.

(** A value of a websocket message.  The component only passes such
    values on or puts them in a template literal, so a number is kept as the
    text JavaScript prints for it ([20] as ["20"], 1e21 as ["1e+21"]). *)
Inductive JsValue : Set :=
| JsUndefined
| JsNumber (printed : string)
| JsString (s : string).

(** What a template literal makes of a value. *)
Definition toString (v : JsValue) : string :=
  match v with
  | JsUndefined => "undefined"
  | JsNumber printed => printed
  | JsString s => s
  end.

Record WsData : Set := mkWsData {
  ws_type : string;
  ws_balance : JsValue;
  ws_output : JsValue;
  ws_total : JsValue;
  ws_output_spent : JsValue;
  ws_keys_count : JsValue;
}.

(** [this.state]; [locked] is [null] until the lock check has answered. *)
Record State : Set := mkState {
  walletType : string;
  newAddress : bool;
  historyLoaded : bool;
  balanceLoaded : bool;
  addressLoaded : bool;
  lockDisabled : bool;
  warning : option string;
  locked : option bool;
}.

Definition initialState : State :=
  {| walletType := ""; newAddress := false; historyLoaded := false;
     balanceLoaded := false; addressLoaded := false; lockDisabled := false;
     warning := None; locked := None |}.

Definition setWalletType (v : string) (s : State) : State :=
  mkState v (newAddress s) (historyLoaded s) (balanceLoaded s) (addressLoaded s)
    (lockDisabled s) (warning s) (locked s).
Definition setHistoryLoaded (v : bool) (s : State) : State :=
  mkState (walletType s) (newAddress s) v (balanceLoaded s) (addressLoaded s)
    (lockDisabled s) (warning s) (locked s).
Definition setBalanceLoaded (v : bool) (s : State) : State :=
  mkState (walletType s) (newAddress s) (historyLoaded s) v (addressLoaded s)
    (lockDisabled s) (warning s) (locked s).
Definition setAddressLoaded (v : bool) (s : State) : State :=
  mkState (walletType s) (newAddress s) (historyLoaded s) (balanceLoaded s) v
    (lockDisabled s) (warning s) (locked s).
Definition setLockDisabled (v : bool) (s : State) : State :=
  mkState (walletType s) (newAddress s) (historyLoaded s) (balanceLoaded s) (addressLoaded s)
    v (warning s) (locked s).
Definition setWarning (v : option string) (s : State) : State :=
  mkState (walletType s) (newAddress s) (historyLoaded s) (balanceLoaded s) (addressLoaded s)
    (lockDisabled s) v (locked s).
Definition setLocked (v : option bool) (s : State) : State :=
  mkState (walletType s) (newAddress s) (historyLoaded s) (balanceLoaded s) (addressLoaded s)
    (lockDisabled s) (warning s) v.

(** What the component does to its collaborators. *)
Inductive Call : Set :=
| CheckWalletLock                               (* helpers.checkWalletLock(...) *)
| WebSocketOn (channel : string)                (* WebSocketHandler.on *)
| BalanceUpdateBalance (balance : JsValue)      (* this.balanceNode.updateBalance *)
| HistoryNewOutput (output total : JsValue)     (* this.historyNode.newOutput *)
| HistoryOutputSpent (spent : JsValue)          (* this.historyNode.outputSpent *)
| ShowAlert (id : string) (duration : Z)        (* helpers.showAlert *)
| HistoryPush (path : string)                   (* this.props.history.push *)
| WalletApiLock                                 (* walletApi.lock() *)
| ConsoleLog.                                   (* console.log(e) *)

Record Component : Set := mkComponent {
  state : State;
  lockRequests : nat;        (* walletApi.lock() promises not yet settled *)
  calls : list Call;         (* oldest first *)
}.

Definition setState (f : State -> State) (w : Component) : Component :=
  mkComponent (f (state w)) (lockRequests w) (calls w).

Definition call (c : Call) (w : Component) : Component :=
  mkComponent (state w) (lockRequests w) (calls w ++ [c]).

(** What [render] returns. *)
Record WalletView : Set := mkWalletView {
  loadingSpinner : bool;
  lockButtonDisabled : bool;
  warningAlert : option string;
}.

Inductive View : Set :=
| Nothing
| WalletUnlock (walletType : string)
| UnlockedWallet (wallet : WalletView).

(** JavaScript truthiness of [this.state.warning]. *)
Definition truthy (warning : option string) : bool :=
  match warning with
  | Some text => negb (String.eqb text "")
  | None => false
  end.

Definition render (s : State) : View :=
  match locked s with
  | Some true => WalletUnlock (walletType s)
  | Some false =>
      UnlockedWallet
        {| loadingSpinner := negb (historyLoaded s && balanceLoaded s && addressLoaded s);
           lockButtonDisabled := lockDisabled s;
           warningAlert := if truthy (warning s) then warning s else None |}
  | None => Nothing
  end.

(** [this.balanceNode] and [this.historyNode] are set by the [ref] callbacks
    of [WalletBalance] and [WalletHistory]: they hold a node exactly while
    [renderWallet] is part of what is rendered. *)
Definition childrenMounted (s : State) : bool :=
  match render s with UnlockedWallet _ => true | _ => false end.

Definition setType (type : string) : Component -> Component :=
  setState (setWalletType type).

Definition lock : Component -> Component := setState (setLocked (Some true)).

Definition unlock : Component -> Component := setState (setLocked (Some false)).

Definition updateBalance (balance : JsValue) (w : Component) : Component :=
  if childrenMounted (state w) then call (BalanceUpdateBalance balance) w else w.

Definition newOutput (output total : JsValue) (w : Component) : Component :=
  if childrenMounted (state w) then call (HistoryNewOutput output total) w else w.

Definition outputSpent (spent : JsValue) (w : Component) : Component :=
  if childrenMounted (state w) then call (HistoryOutputSpent spent) w else w.

Definition showWarning (message : string) (w : Component) : Component :=
  call (ShowAlert "alert-warning" 5000) (setState (setWarning (Some message)) w).

Definition backupKeysWarning (keysCount : JsValue) : Component -> Component :=
  showWarning (toString keysCount +:+ " new keys were generated! Backup your wallet").

Definition gapLimitWarning : Component -> Component :=
  showWarning
    "You have achieved the limit of unused addresses in sequence. Use this one to generate more.".

Definition handleWebsocket (wsData : WsData) (w : Component) : Component :=
  if String.eqb (ws_type wsData) "wallet:balance_updated" then
    updateBalance (ws_balance wsData) w
  else if String.eqb (ws_type wsData) "wallet:output_received" then
    newOutput (ws_output wsData) (ws_total wsData) w
  else if String.eqb (ws_type wsData) "wallet:output_spent" then
    outputSpent (ws_output_spent wsData) w
  else if String.eqb (ws_type wsData) "wallet:keys_generated" then
    backupKeysWarning (ws_keys_count wsData) w
  else if String.eqb (ws_type wsData) "wallet:gap_limit" then
    gapLimitWarning w
  else w.

Definition sendTokens : Component -> Component := call (HistoryPush "/wallet/send_tokens").

(** [willLockWallet] up to the promise of [walletApi.lock()]. *)
Definition willLockWallet (w : Component) : Component :=
  let w1 := call WalletApiLock (setState (setLockDisabled true) w) in
  mkComponent (state w1) (S (lockRequests w1)) (calls w1).

(** The promise is settled. *)
Definition settle (w : Component) : Component :=
  mkComponent (state w) (pred (lockRequests w)) (calls w).

(** Its [then] callback. *)
Definition willLockWallet_resolved (success : bool) (w : Component) : Component :=
  let w1 := setState (setLockDisabled false) w in
  if success then lock w1 else w1.

(** Its rejection callback. *)
Definition willLockWallet_rejected (w : Component) : Component := call ConsoleLog w.

Definition historyLoadedCallback : Component -> Component :=
  setState (setHistoryLoaded true).
Definition balanceLoadedCallback : Component -> Component :=
  setState (setBalanceLoaded true).
Definition addressLoadedCallback : Component -> Component :=
  setState (setAddressLoaded true).

(** [componentDidMount] on the initial state. *)
Definition mounted : Component :=
  call (WebSocketOn "wallet")
    (call CheckWalletLock
       {| state := initialState; lockRequests := 0; calls := [] |}).

Inductive Event : Set :=
| LockChecked (isLocked : bool)       (* checkWalletLock calls this.lock or this.unlock *)
| TypeChecked (type : string)         (* checkWalletLock calls this.setType *)
| Websocket (wsData : WsData)
| SendTokensClicked
| LockWalletClicked
| HistoryLoaded
| BalanceLoaded
| AddressLoaded
| Unlocked                            (* WalletUnlock calls its unlock prop *)
| LockResolved (success : bool)
| LockRejected.

(** Clicks and child callbacks come from what is rendered; the lock
    button does nothing while it is disabled. *)
Definition enabled (w : Component) (e : Event) : bool :=
  match e with
  | LockChecked _ | TypeChecked _ | Websocket _ => true
  | SendTokensClicked | HistoryLoaded | BalanceLoaded | AddressLoaded =>
      childrenMounted (state w)
  | LockWalletClicked => childrenMounted (state w) && negb (lockDisabled (state w))
  | Unlocked => match render (state w) with WalletUnlock _ => true | _ => false end
  | LockResolved _ | LockRejected => negb (Nat.eqb (lockRequests w) 0)
  end.

Definition handle (w : Component) (e : Event) : Component :=
  match e with
  | LockChecked isLocked => if isLocked then lock w else unlock w
  | TypeChecked type => setType type w
  | Websocket wsData => handleWebsocket wsData w
  | SendTokensClicked => sendTokens w
  | LockWalletClicked => willLockWallet w
  | HistoryLoaded => historyLoadedCallback w
  | BalanceLoaded => balanceLoadedCallback w
  | AddressLoaded => addressLoadedCallback w
  | Unlocked => unlock w
  | LockResolved success => willLockWallet_resolved success (settle w)
  | LockRejected => willLockWallet_rejected (settle w)
  end.

Definition step (w : Component) (e : Event) : Component :=
  if enabled w e then handle w e else w.

Definition run (w : Component) (events : list Event) : Component :=
  fold_left step events w.

(** Sample messages. *)
Definition message (type : string) : WsData :=
  {| ws_type := type; ws_balance := JsNumber "700"; ws_output := JsString "out";
     ws_total := JsNumber "2"; ws_output_spent := JsString "spent";
     ws_keys_count := JsNumber "20" |}.

End Wallet.

(** ** More sample traffic *)

Module Visit.

(** [Tokens.js] right after mounting, the search button clicked once more:
    two searches are in flight. *)
Definition twoSearches : Screen :=
  step Callbacks false (mounted Callbacks false Sample.noParams)
    (SearchButtonClicked None None None).

(** The revision with the search effect right after mounting: its search is
    in flight. *)
Definition searching : Screen := mounted Effects false Sample.noParams.

(** The wallet, unlocked, with its three children loaded. *)
Definition openWallet : Wallet.Component :=
  Wallet.run Wallet.mounted
    [Wallet.LockChecked false; Wallet.HistoryLoaded; Wallet.BalanceLoaded;
     Wallet.AddressLoaded].

(** The wallet before the lock check has answered. *)
Definition unknownWallet : Wallet.Component := Wallet.mounted.

End Visit.

(** * Properties *)

(** ** The table of cursors *)

Lemma find_page_app p l1 l2 :
  find_page p (l1 ++ l2) =
    match find_page p l1 with Some e => Some e | None => find_page p l2 end.
Proof.
  unfold find_page. induction l1 as [|e l1 IH]; simpl; [reflexivity|].
  destruct (pe_page e =? p)%Z; [reflexivity | exact IH].
Qed.

Lemma find_page_Some p l e :
  find_page p l = Some e -> e ∈ l /\ pe_page e = p.
Proof.
  unfold find_page. intros H. apply List.find_some in H as [Hin Heq].
  split; [ by apply list_elem_of_In | by apply Z.eqb_eq ].
Qed.

Lemma find_page_None p l :
  (forall e, e ∈ l -> pe_page e <> p) -> find_page p l = None.
Proof.
  unfold find_page. induction l as [|e l IH]; intros H; simpl; [reflexivity|].
  destruct (Z.eqb_spec (pe_page e) p) as [Heq|_].
  - exfalso. apply (H e); [left | exact Heq].
  - apply IH. intros e' He'. apply H. by right.
Qed.

Lemma cachedSearchAfter_None p l :
  find_page p l = None -> cachedSearchAfter p l = [].
Proof. unfold cachedSearchAfter. by intros ->. Qed.

Lemma cachedSearchAfter_Some p l e :
  find_page p l = Some e -> cachedSearchAfter p l = pe_searchAfter e.
Proof. unfold cachedSearchAfter. by intros ->. Qed.

Lemma lastCurrentTokenSort_last rows row c :
  last rows = Some row -> tk_sort row = Some c -> lastCurrentTokenSort rows = c.
Proof. unfold lastCurrentTokenSort. intros -> Hc. simpl. by rewrite Hc. Qed.

(** ** One step of either revision *)

Lemma enabled_Resolved rev m w i tokensRequest :
  enabled rev m w (Resolved i tokensRequest) = bool_decide (i < length (inflight w)).
Proof. destruct rev; reflexivity. Qed.

Lemma resolved_search rev m w k rest tokensRequest :
  inflight w = k :: rest ->
  isSearch k = true ->
  let w' := step rev m w (Resolved 0 tokensRequest) in
  Settled w w' tokensRequest
  /\ page (st w') = 1%Z
  /\ hasBefore (st w') = false
  /\ hasAfter (st w') = has_next (getTokens_rows tokensRequest)
  /\ pageSearchAfter (st w') = [ {| pe_page := 1; pe_searchAfter := [] |} ]
  /\ isSearchLoading (st w') = false.
Proof.
  intros Hk Hs. destruct k as [url initialQuery| |]; try discriminate.
  destruct rev; simpl.
  - unfold Tokens.step, Tokens.enabled, offered, Tokens.handle.
    rewrite Hk. simpl.
    destruct url as [u|], initialQuery; simpl;
      repeat split; simpl; rewrite ?Hk; reflexivity.
  - unfold TokensFx.step, TokensFx.enabled, offered, TokensFx.handle.
    rewrite Hk. simpl.
    unfold TokensFx.rerender, TokensFx.searchEffect. simpl.
    destruct (TokensFx.sameDeps _ _); simpl;
      repeat split; simpl; rewrite ?Hk; reflexivity.
Qed.

Lemma step_enabled_Callbacks m w e :
  enabled Callbacks m w e = true -> step Callbacks m w e = Tokens.handle w e.
Proof. simpl. unfold Tokens.step. by intros ->. Qed.

Lemma step_enabled_Effects m w e :
  enabled Effects m w e = true ->
  step Effects m w e = TokensFx.rerender (st w) (TokensFx.handle w e).
Proof. simpl. unfold TokensFx.step. by intros ->. Qed.

Lemma step_disabled rev m w e :
  enabled rev m w e = false -> step rev m w e = w.
Proof. destruct rev; simpl; [unfold Tokens.step | unfold TokensFx.step]; by intros ->. Qed.

Ltac same_deps :=
  unfold TokensFx.rerender, TokensFx.sameDeps; simpl;
  rewrite ?Bool.eqb_reflx, ?String.eqb_refl; simpl.

Lemma next_clicked rev m w :
  enabled rev m w NextPageClicked = true ->
  let c := st w in
  let nextPage := (page c + 1)%Z in
  let cached := cachedSearchAfter nextPage (pageSearchAfter c) in
  step rev m w NextPageClicked =
    {| st := if isEmpty cached
             then setPageSearchAfter
                    (pageSearchAfter c
                       ++ [ {| pe_page := nextPage;
                               pe_searchAfter := lastCurrentTokenSort (tokens c) |} ])
                    (setCalculatingPage true c)
             else setCalculatingPage true c;
       inflight := inflight w ++ [AwaitNextPage nextPage];
       calls := calls w
                  ++ [ {| gl_searchText := searchText c; gl_sortBy := sortBy c;
                          gl_order := order c;
                          gl_searchAfter := if isEmpty cached
                                            then lastCurrentTokenSort (tokens c)
                                            else cached |} ];
       history := history w |}.
Proof.
  intros He. destruct rev.
  - rewrite (step_enabled_Callbacks _ _ _ He). simpl.
    unfold Tokens.nextPageClicked. destruct (isEmpty _); reflexivity.
  - rewrite (step_enabled_Effects _ _ _ He). simpl.
    unfold TokensFx.nextPageClicked. destruct (isEmpty _); same_deps; reflexivity.
Qed.

Lemma previous_clicked rev m w :
  enabled rev m w PreviousPageClicked = true ->
  let c := st w in
  let previousPage := (page c - 1)%Z in
  step rev m w PreviousPageClicked =
    {| st := setCalculatingPage true c;
       inflight := inflight w ++ [AwaitPreviousPage previousPage];
       calls := calls w
                  ++ [ {| gl_searchText := searchText c; gl_sortBy := sortBy c;
                          gl_order := order c;
                          gl_searchAfter :=
                            cachedSearchAfter previousPage (pageSearchAfter c) |} ];
       history := history w |}.
Proof.
  intros He. destruct rev.
  - rewrite (step_enabled_Callbacks _ _ _ He). reflexivity.
  - rewrite (step_enabled_Effects _ _ _ He). simpl.
    unfold TokensFx.previousPageClicked. same_deps. reflexivity.
Qed.

Lemma resolved_next rev m w nextPage rest tokensRequest :
  inflight w = AwaitNextPage nextPage :: rest ->
  let w' := step rev m w (Resolved 0 tokensRequest) in
  Settled w w' tokensRequest
  /\ page (st w') = nextPage
  /\ hasBefore (st w') = true
  /\ hasAfter (st w') = has_next (getTokens_rows tokensRequest)
  /\ pageSearchAfter (st w') = pageSearchAfter (st w)
  /\ isSearchLoading (st w') = isSearchLoading (st w).
Proof.
  intros Hk. destruct rev; simpl.
  - unfold Tokens.step, Tokens.enabled, offered, Tokens.handle.
    rewrite Hk. simpl. repeat split; simpl; rewrite ?Hk; reflexivity.
  - unfold TokensFx.step, TokensFx.enabled, offered, TokensFx.handle.
    rewrite Hk. simpl. same_deps.
    repeat split; simpl; rewrite ?Hk; reflexivity.
Qed.

Lemma resolved_previous rev m w previousPage rest tokensRequest :
  inflight w = AwaitPreviousPage previousPage :: rest ->
  let w' := step rev m w (Resolved 0 tokensRequest) in
  Settled w w' tokensRequest
  /\ page (st w') = previousPage
  /\ hasBefore (st w') = negb (previousPage =? 1)%Z
  /\ hasAfter (st w') = true
  /\ pageSearchAfter (st w') = pageSearchAfter (st w)
  /\ isSearchLoading (st w') = isSearchLoading (st w).
Proof.
  intros Hk. destruct rev; simpl.
  - unfold Tokens.step, Tokens.enabled, offered, Tokens.handle.
    rewrite Hk. simpl. repeat split; simpl; rewrite ?Hk; reflexivity.
  - unfold TokensFx.step, TokensFx.enabled, offered, TokensFx.handle.
    rewrite Hk. simpl. same_deps.
    repeat split; simpl; rewrite ?Hk; reflexivity.
Qed.

(** ** Forward navigation *)

Lemma forward_invariant rev m w shown :
  forward rev m w shown ->
  inflight w = []
  /\ page (st w) = Z.of_nat (length shown)
  /\ last shown = Some (tokens (st w))
  /\ find_page 1 (pageSearchAfter (st w)) = Some {| pe_page := 1; pe_searchAfter := [] |}
  /\ (forall e, e ∈ pageSearchAfter (st w) ->
        (1 <= pe_page e <= page (st w))%Z
        /\ (pe_page e = 1%Z -> pe_searchAfter e = [])
        /\ ((1 < pe_page e)%Z ->
              exists rows, shown !! Z.to_nat (pe_page e - 2) = Some rows
                           /\ pe_searchAfter e = lastCurrentTokenSort rows))
  /\ (forall N, (1 <= N <= page (st w))%Z ->
        exists e, e ∈ pageSearchAfter (st w) /\ pe_page e = N).
Proof.
  induction 1 as [w k r w' Hk Hs Hw' | w shown r w' Hf IH He Hw'].
  - destruct (resolved_search rev m w k [] r Hk Hs)
      as ([Hin _ _ _ _ _ _] & Hp & _ & _ & Ht & _).
    rewrite <- Hw' in *. rewrite Hk in Hin.
    rewrite Hp, Ht. repeat split; try done.
    + apply list_elem_of_singleton in H. subst e. simpl. lia.
    + apply list_elem_of_singleton in H. subst e. simpl. lia.
    + apply list_elem_of_singleton in H. by subst e.
    + apply list_elem_of_singleton in H. subst e. simpl. lia.
    + intros N HN. exists {| pe_page := 1; pe_searchAfter := [] |}.
      split; [by apply list_elem_of_singleton | simpl; lia].
  - destruct IH as (Hin & Hp & Hl & H1 & Hall & Hex).
    assert (Hnone : find_page (page (st w) + 1) (pageSearchAfter (st w)) = None).
    { apply find_page_None. intros e Hin'. destruct (Hall e Hin') as [Hb _]. lia. }
    pose proof (next_clicked rev m w He) as Hn. simpl in Hn.
    rewrite (cachedSearchAfter_None _ _ Hnone) in Hn. simpl in Hn.
    unfold click in Hw'. rewrite Hn, Hin in Hw'. simpl in Hw'.
    match type of Hw' with _ = step _ _ ?w1 _ =>
      destruct (resolved_next rev m w1 (page (st w) + 1) [] r eq_refl)
        as ([Hin' _ _ _ _ _ _] & Hp' & _ & _ & Ht' & _)
    end.
    rewrite <- Hw' in *. simpl in Hin', Ht'.
    assert (Hpos : (1 <= page (st w))%Z).
    { apply find_page_Some in H1 as [Hin1 _]. destruct (Hall _ Hin1) as [Hb _].
      simpl in Hb. lia. }
    rewrite Hp', Ht'. repeat split.
    + exact Hin'.
    + rewrite length_app. simpl. lia.
    + apply last_snoc.
    + rewrite find_page_app, H1. reflexivity.
    + apply elem_of_app in H as [H|H].
      * destruct (Hall e H) as [Hb _]. lia.
      * apply list_elem_of_singleton in H. subst e. simpl. lia.
    + apply elem_of_app in H as [H|H].
      * destruct (Hall e H) as [Hb _]. lia.
      * apply list_elem_of_singleton in H. subst e. simpl. lia.
    + apply elem_of_app in H as [H|H].
      * destruct (Hall e H) as (_ & Hc & _). exact Hc.
      * apply list_elem_of_singleton in H. subst e. simpl. lia.
    + apply elem_of_app in H as [H|H].
      * destruct (Hall e H) as (Hb & _ & Hc). intros Hgt.
        destruct (Hc Hgt) as (rows & Hrows & Hcur). exists rows. split; [|exact Hcur].
        rewrite lookup_app_l; [exact Hrows|]. lia.
      * apply list_elem_of_singleton in H. subst e. simpl. intros _.
        exists (tokens (st w)). split; [|reflexivity].
        rewrite lookup_app_l by lia.
        rewrite last_lookup in Hl. rewrite <- Hl. f_equal. lia.
    + intros N HN. destruct (Z.eq_dec N (page (st w) + 1)%Z) as [->|Hne].
      * eexists. split; [apply elem_of_app; right; by apply list_elem_of_singleton|].
        reflexivity.
      * destruct (Hex N) as (e & He1 & He2); [lia|].
        exists e. split; [apply elem_of_app; by left | exact He2].
Qed.

Lemma find_page_is_Some p l e :
  e ∈ l -> pe_page e = p -> exists e', find_page p l = Some e'.
Proof.
  intros Hin Hp. destruct (find_page p l) as [e'|] eqn:Hf; [by exists e'|].
  unfold find_page in Hf. apply list_elem_of_In in Hin.
  pose proof (List.find_none _ _ Hf e Hin) as Hn. simpl in Hn. lia.
Qed.

(** C1.  After a completed search followed by any number of "next" clicks,
    each request resolving before the following click, [pageSearchAfter] maps
    page 1 to the empty cursor; every entry of a page N > 1 holds what
    [get(last(rows), 'sort', [])] gives on the rows displayed for page N-1,
    hence the [sort] of their last row whenever that row carries one; and
    every page from 2 to the current one has an entry. *)
Theorem forward_cursor_table rev m w shown :
  forward rev m w shown ->
  find_page 1 (pageSearchAfter (st w)) = Some {| pe_page := 1; pe_searchAfter := [] |}
  /\ (forall e, e ∈ pageSearchAfter (st w) ->
        (pe_page e = 1%Z /\ pe_searchAfter e = [])
        \/ ((1 < pe_page e <= page (st w))%Z
            /\ exists rows,
                 shown !! Z.to_nat (pe_page e - 2) = Some rows
                 /\ pe_searchAfter e = lastCurrentTokenSort rows
                 /\ forall row c, last rows = Some row -> tk_sort row = Some c ->
                                  pe_searchAfter e = c))
  /\ (forall N, (1 < N <= page (st w))%Z ->
        exists e, find_page N (pageSearchAfter (st w)) = Some e)
  /\ page (st w) = Z.of_nat (length shown).
Proof.
  intros Hf. destruct (forward_invariant _ _ _ _ Hf) as (_ & Hp & _ & H1 & Hall & Hex).
  split; [exact H1|]. split; [|split; [|exact Hp]].
  - intros e He. destruct (Hall e He) as (Hb & Hone & Hmore).
    destruct (Z.eq_dec (pe_page e) 1%Z) as [Heq|Hne].
    + left. split; [exact Heq | exact (Hone Heq)].
    + right. split; [lia|].
      destruct Hmore as (rows & Hrows & Hcur); [lia|].
      exists rows. split; [exact Hrows|]. split; [exact Hcur|].
      intros row c Hl Hs. rewrite Hcur. exact (lastCurrentTokenSort_last _ _ _ Hl Hs).
  - intros N HN. destruct (Hex N) as (e & He1 & He2); [lia|].
    exact (find_page_is_Some _ _ _ He1 He2).
Qed.

(** ** A new query *)

Lemma query_change_starts_search rev m w e :
  isQueryChange e = true ->
  enabled rev m w e = true ->
  isSearchLoading (st w) = false ->
  let w1 := step rev m w e in
  exists c k,
    calls w1 = calls w ++ [c] /\ gl_searchAfter c = []
    /\ inflight w1 = inflight w ++ [k] /\ isSearch k = true
    /\ error (st w1) = error (st w).
Proof.
  intros Hq He Hl. destruct rev.
  - rewrite (step_enabled_Callbacks _ _ _ He).
    destruct e as [v|key|a b o| | |headerName|i r|i]; try discriminate; simpl.
    + unfold Tokens.onSearchTextKeyUp. simpl in Hq. rewrite Hq.
      do 2 eexists. repeat split; reflexivity.
    + do 2 eexists. repeat split; reflexivity.
    + unfold Tokens.tableHeaderClicked.
      destruct (String.eqb headerName (sortBy (st w)));
        do 2 eexists; repeat split; reflexivity.
  - rewrite (step_enabled_Effects _ _ _ He).
    destruct e as [v|key|a b o| | |headerName|i r|i]; try discriminate; simpl.
    + unfold TokensFx.onSearchTextKeyUp. simpl in Hq. rewrite Hq.
      unfold TokensFx.rerender, TokensFx.sameDeps, TokensFx.searchEffect. simpl.
      rewrite Hl. simpl. do 2 eexists. repeat split; reflexivity.
    + unfold TokensFx.rerender, TokensFx.sameDeps, TokensFx.searchEffect. simpl.
      rewrite Hl. simpl. do 2 eexists. repeat split; reflexivity.
    + unfold TokensFx.tableHeaderClicked.
      destruct (String.eqb headerName (sortBy (st w)));
        unfold TokensFx.rerender, TokensFx.sameDeps, TokensFx.searchEffect; simpl;
        rewrite Hl; simpl; do 2 eexists; repeat split; reflexivity.
Qed.

(** C2.  A search submit, an Enter key or a header click, made while no
    request is in flight, starts one page-1 request with the empty cursor; once
    it resolves, [page] is 1, [hasBefore] is false and [pageSearchAfter] is the
    single entry of page 1 with the empty cursor, whatever it held before. *)
Theorem query_change_resets rev m w e tokensRequest :
  isQueryChange e = true ->
  enabled rev m w e = true ->
  inflight w = [] ->
  isSearchLoading (st w) = false ->
  let w1 := step rev m w e in
  let w2 := step rev m w1 (Resolved 0 tokensRequest) in
  (exists c k, calls w1 = calls w ++ [c] /\ gl_searchAfter c = []
               /\ inflight w1 = [k] /\ isSearch k = true)
  /\ inflight w2 = []
  /\ page (st w2) = 1%Z
  /\ hasBefore (st w2) = false
  /\ pageSearchAfter (st w2) = [ {| pe_page := 1; pe_searchAfter := [] |} ].
Proof.
  intros Hq He Hi Hl.
  destruct (query_change_starts_search rev m w e Hq He Hl)
    as (c & k & Hc & Hcur & Hk & Hs & _).
  rewrite Hi in Hk. simpl in Hk.
  destruct (resolved_search rev m _ k [] tokensRequest Hk Hs)
    as ([Hin _ _ _ _ _ _] & Hp & Hb & _ & Ht & _).
  rewrite Hk in Hin.
  split; [by exists c, k|]. by repeat split.
Qed.

(** ** Going back *)

Lemma browsing_invariant rev m w :
  browsing rev m w ->
  inflight w = []
  /\ isSearchLoading (st w) = false
  /\ forall N, (1 <= N <= page (st w))%Z ->
       exists e, find_page N (pageSearchAfter (st w)) = Some e.
Proof.
  induction 1 as [w k r Hk Hs | w r Hb IH He | w r Hb IH He | w v Hb IH].
  - destruct (resolved_search rev m w k [] r Hk Hs)
      as ([Hin _ _ _ _ _ _] & Hp & _ & _ & Ht & Hl).
    rewrite Hk in Hin. rewrite Hp, Ht. repeat split; try done.
    intros N HN. assert (N = 1%Z) as -> by lia. by eexists.
  - destruct IH as (Hin & Hl & Hex).
    pose proof (next_clicked rev m w He) as Hn. simpl in Hn.
    unfold click. rewrite Hn, Hin. simpl.
    match goal with |- context [step _ _ ?w1 _] =>
      destruct (resolved_next rev m w1 (page (st w) + 1) [] r eq_refl)
        as ([Hin' _ _ _ _ _ _] & Hp' & _ & _ & Ht' & Hl')
    end.
    simpl in Hin'. rewrite Hp', Ht', Hl'. split; [exact Hin'|].
    split; [by destruct (isEmpty _)|].
    intros N HN.
    destruct (isEmpty _) eqn:Hempty; simpl.
    + rewrite find_page_app.
      destruct (Z.eq_dec N (page (st w) + 1)%Z) as [->|Hne].
      * destruct (find_page _ (pageSearchAfter (st w))); [by eexists|].
        unfold find_page. simpl. rewrite Z.eqb_refl. by eexists.
      * destruct (Hex N) as [e' He']; [lia|]. rewrite He'. by eexists.
    + destruct (Z.eq_dec N (page (st w) + 1)%Z) as [->|Hne].
      * destruct (find_page (page (st w) + 1) (pageSearchAfter (st w))) as [e'|] eqn:Hf;
          [by eexists|].
        rewrite (cachedSearchAfter_None _ _ Hf) in Hempty. discriminate.
      * apply Hex. lia.
  - destruct IH as (Hin & Hl & Hex).
    pose proof (previous_clicked rev m w He) as Hn. simpl in Hn.
    unfold click. rewrite Hn, Hin. simpl.
    match goal with |- context [step _ _ ?w1 _] =>
      destruct (resolved_previous rev m w1 (page (st w) - 1) [] r eq_refl)
        as ([Hin' _ _ _ _ _ _] & Hp' & _ & _ & Ht' & Hl')
    end.
    simpl in Hin'. rewrite Hp', Ht', Hl'. repeat split; try done.
    intros N HN. apply Hex. lia.
  - destruct IH as (Hin & Hl & Hex).
    destruct (enabled rev m w (SearchTextChanged v)) eqn:He;
      [|by rewrite (step_disabled _ _ _ _ He)].
    destruct rev.
    + rewrite (step_enabled_Callbacks _ _ _ He). by simpl.
    + rewrite (step_enabled_Effects _ _ _ He). simpl.
      unfold TokensFx.rerender, TokensFx.searchEffect. simpl. rewrite Hl. simpl.
      destruct (TokensFx.sameDeps _ _); by simpl.
Qed.

(** C3.  A "previous" click on a page P > 1 sends the request with
    [get(find(pageSearchAfter, { page: P-1 }), 'searchAfter', [])], which is
    the cursor cached for page P-1; that entry exists in every state reached by
    browsing.  When the request resolves, [hasAfter] is true whatever
    [has_next] came back, [hasBefore] tells whether P-1 differs from 1, and
    [page] is P-1. *)
Theorem previous_page rev m w tokensRequest :
  (1 < page (st w))%Z ->
  enabled rev m w PreviousPageClicked = true ->
  inflight w = [] ->
  let P := page (st w) in
  let w1 := step rev m w PreviousPageClicked in
  let w2 := step rev m w1 (Resolved 0 tokensRequest) in
  (exists c, calls w1 = calls w ++ [c]
             /\ gl_searchAfter c = cachedSearchAfter (P - 1) (pageSearchAfter (st w))
             /\ forall e, find_page (P - 1) (pageSearchAfter (st w)) = Some e ->
                          gl_searchAfter c = pe_searchAfter e)
  /\ (browsing rev m w ->
        exists e, find_page (P - 1) (pageSearchAfter (st w)) = Some e)
  /\ hasAfter (st w2) = true
  /\ hasBefore (st w2) = negb (P - 1 =? 1)%Z
  /\ page (st w2) = (P - 1)%Z.
Proof.
  intros HP He Hin. simpl.
  pose proof (previous_clicked rev m w He) as Hn. simpl in Hn. rewrite Hn, Hin. simpl.
  match goal with |- context [step _ _ ?w1 _] =>
    destruct (resolved_previous rev m w1 (page (st w) - 1) [] tokensRequest eq_refl)
      as (_ & Hp' & Hb' & Ha' & _)
  end.
  split; [|split; [|by repeat split]].
  - eexists. split; [reflexivity|]. simpl. split; [reflexivity|].
    intros e Hf. by apply cachedSearchAfter_Some.
  - intros Hb. destruct (browsing_invariant _ _ _ Hb) as (_ & _ & Hex). apply Hex. lia.
Qed.

(** ** The error flag *)

Lemma resolved_error rev m w i k tokensRequest :
  inflight w !! i = Some k ->
  error (st (step rev m w (Resolved i tokensRequest)))
  = get (resp_error tokensRequest) false.
Proof.
  intros Hk.
  assert (He : enabled rev m w (Resolved i tokensRequest) = true).
  { rewrite enabled_Resolved. apply bool_decide_eq_true_2.
    by apply lookup_lt_Some in Hk. }
  destruct rev.
  - rewrite (step_enabled_Callbacks _ _ _ He). simpl. rewrite Hk.
    destruct k as [[u|] []| |]; reflexivity.
  - rewrite (step_enabled_Effects _ _ _ He). simpl. rewrite Hk.
    destruct k; simpl.
    + unfold TokensFx.rerender, TokensFx.searchEffect. simpl.
      destruct (TokensFx.sameDeps _ _); reflexivity.
    + same_deps. reflexivity.
    + same_deps. reflexivity.
Qed.

(** C4, as the code has it.  When a request resolves with [error = true] the
    error flag is set and, outside maintenance mode, the error message takes
    the place of the table.  A search started afterwards leaves the flag as it
    is while its request is in flight; the flag becomes the [error] value of
    that request, false if it carries none, when the request resolves. *)
Theorem error_flag rev m w :
  (forall i k tokensRequest,
      inflight w !! i = Some k ->
      resp_error tokensRequest = Some true ->
      let w' := step rev m w (Resolved i tokensRequest) in
      error (st w') = true
      /\ renderTokensTable rev m (st w') = if m then NoTable else ErrorLoadingTokens)
  /\ (forall e tokensRequest,
        isQueryChange e = true ->
        enabled rev m w e = true ->
        inflight w = [] ->
        isSearchLoading (st w) = false ->
        let w1 := step rev m w e in
        let w2 := step rev m w1 (Resolved 0 tokensRequest) in
        (exists c, calls w1 = calls w ++ [c])
        /\ error (st w1) = error (st w)
        /\ error (st w2) = get (resp_error tokensRequest) false).
Proof.
  split.
  - intros i k r Hk Hr. simpl.
    pose proof (resolved_error rev m w i k r Hk) as He. rewrite Hr in He. simpl in He.
    split; [exact He|].
    destruct m; [by destruct rev|].
    destruct rev;
      cbv [renderTokensTable Tokens.renderTokensTable TokensFx.renderTokensTable];
      by rewrite He.
  - intros e r Hq He Hin Hl. simpl.
    destruct (query_change_starts_search rev m w e Hq He Hl)
      as (c & k & Hc & _ & Hk & _ & Herr).
    split; [by exists c|]. split; [exact Herr|].
    apply (resolved_error rev m _ 0 k). rewrite Hk, Hin. reflexivity.
Qed.

(** C4, as stated, fails: after a failed request the user starts a search;
    the new request has been sent and the error flag is still set. *)
Lemma search_does_not_clear_error :
  (error (st (Sample.afterFailure Callbacks)) = true
   /\ length (calls (Sample.searchingAgain Callbacks))
      = S (length (calls (Sample.afterFailure Callbacks)))
   /\ inflight (Sample.searchingAgain Callbacks) <> []
   /\ error (st (Sample.searchingAgain Callbacks)) = true)
  /\ (error (st (Sample.afterFailure Effects)) = true
      /\ length (calls (Sample.searchingAgain Effects))
         = S (length (calls (Sample.afterFailure Effects)))
      /\ inflight (Sample.searchingAgain Effects) <> []
      /\ error (st (Sample.searchingAgain Effects)) = true).
Proof. vm_compute. repeat split; discriminate. Qed.

(** ** The cursor of the next page *)

(** C5, as the code has it.  A "next" click looks up the target page with
    [find], which gives the first entry of that page in the table.  If there
    is one and its cursor is non-empty, that cursor is sent and the table is
    left as it is.  Otherwise, that is with no entry for the page or with a
    first entry whose cursor is empty (whatever entries of the page come after
    it), the cursor is [get(last(tokens), 'sort', [])] and an entry with it is
    appended at the end of the table for the target page. *)
Theorem next_page_cursor rev m w :
  enabled rev m w NextPageClicked = true ->
  let c := st w in
  let target := (page c + 1)%Z in
  let w1 := step rev m w NextPageClicked in
  let sent cursor :=
    calls w1 = calls w ++ [ {| gl_searchText := searchText c; gl_sortBy := sortBy c;
                               gl_order := order c; gl_searchAfter := cursor |} ] in
  (forall e, find_page target (pageSearchAfter c) = Some e ->
             pe_searchAfter e <> [] ->
             sent (pe_searchAfter e) /\ pageSearchAfter (st w1) = pageSearchAfter c)
  /\ ((find_page target (pageSearchAfter c) = None
       \/ exists e, find_page target (pageSearchAfter c) = Some e /\ pe_searchAfter e = []) ->
      sent (lastCurrentTokenSort (tokens c))
      /\ pageSearchAfter (st w1)
         = pageSearchAfter c
             ++ [ {| pe_page := target;
                     pe_searchAfter := lastCurrentTokenSort (tokens c) |} ]).
Proof.
  intros He. simpl. rewrite (next_clicked rev m w He). split.
  - intros e Hf Hne. rewrite (cachedSearchAfter_Some _ _ _ Hf).
    destruct (pe_searchAfter e) eqn:Hc; [done|]. by simpl.
  - intros Hcase.
    assert (Hempty : cachedSearchAfter (page (st w) + 1) (pageSearchAfter (st w)) = []).
    { destruct Hcase as [Hn|(e & Hf & Hc)].
      - by apply cachedSearchAfter_None.
      - by rewrite (cachedSearchAfter_Some _ _ _ Hf). }
    rewrite Hempty. by simpl.
Qed.

(** ** The first "next" click *)

Lemma last_map {A B} (f : A -> B) (l : list A) : last (map f l) = f <$> last l.
Proof.
  induction l as [|a [|b l] IH]; [reflexivity | reflexivity |].
  exact IH.
Qed.

(** C6.  Page 1 shows the twenty rows of a search for text [""] sorted by
    ["transaction_timestamp"], ["desc"], and the service said there are more.
    A "next" click then sends the request with the [sort] of the twentieth
    row as cursor; when it resolves, [page] is 2 and [hasBefore] is true. *)
Theorem next_from_first_page rev w0 k tokensRequest rows row20 cursor nextRequest :
  inflight w0 = [k] ->
  isSearch k = true ->
  searchText (st w0) = "" ->
  sortBy (st w0) = "transaction_timestamp" ->
  order (st w0) = "desc" ->
  get (resp_error tokensRequest) false = false ->
  resp_data tokensRequest = Some {| hits := rows; has_next := true |} ->
  length rows = 20 ->
  rows !! 19 = Some row20 ->
  tk_sort row20 = Some cursor ->
  let w := step rev false w0 (Resolved 0 tokensRequest) in
  let w1 := step rev false w NextPageClicked in
  let w2 := step rev false w1 (Resolved 0 nextRequest) in
  page (st w) = 1%Z
  /\ hasAfter (st w) = true
  /\ length (tokens (st w)) = 20
  /\ calls w1 = calls w ++ [ {| gl_searchText := ""; gl_sortBy := "transaction_timestamp";
                                gl_order := "desc"; gl_searchAfter := cursor |} ]
  /\ page (st w2) = 2%Z
  /\ hasBefore (st w2) = true.
Proof.
  intros Hk Hs Htext Hsort Horder Herr Hdata Hlen H20 Hcur. simpl.
  destruct (resolved_search rev false w0 k [] tokensRequest Hk Hs)
    as ([Hin _ He Ht Hst Hsb Ho] & Hp & _ & Ha & Htab & _).
  set (w := step rev false w0 (Resolved 0 tokensRequest)) in *.
  rewrite Hk in Hin. simpl in Hin.
  assert (Hrows : hits (getTokens_rows tokensRequest)
                  = map (fun token => {| tk_id := tk_id token;
                                         tk_uid := Some (tk_id token);
                                         tk_nft := Some (get (tk_nft token) false);
                                         tk_sort := tk_sort token |}) rows).
  { unfold getTokens_rows. by rewrite Hdata. }
  assert (Hmore : has_next (getTokens_rows tokensRequest) = true).
  { unfold getTokens_rows. by rewrite Hdata. }
  assert (Hen : enabled rev false w NextPageClicked = true).
  { destruct rev; simpl; unfold Tokens.enabled, TokensFx.enabled,
      Tokens.renderTokensTable, TokensFx.renderTokensTable; simpl;
      by rewrite He, Herr. }
  assert (Hlast : lastCurrentTokenSort (tokens (st w)) = cursor).
  { rewrite Ht, Hrows. unfold lastCurrentTokenSort.
    rewrite last_map, last_lookup, Hlen. simpl. rewrite H20. simpl. by rewrite Hcur. }
  pose proof (next_clicked rev false w Hen) as Hn. simpl in Hn.
  rewrite Htab, Hp in Hn. simpl in Hn. rewrite Hlast, Hin, Hst, Hsb, Ho in Hn.
  rewrite Htext, Hsort, Horder in Hn.
  rewrite Hn. simpl.
  match goal with |- context [step _ _ ?w1 (Resolved 0 nextRequest)] =>
    destruct (resolved_next rev false w1 2 [] nextRequest eq_refl)
      as (_ & Hp' & Hb' & _)
  end.
  rewrite Hp, Ha, Hmore, Ht, Hrows, length_map, Hlen. by repeat split.
Qed.

(** ** Sorting by a column *)

Lemma String_eqb_comm a b : String.eqb a b = String.eqb b a.
Proof.
  destruct (String.eqb_spec a b) as [->|Hne].
  - by rewrite String.eqb_refl.
  - symmetry. apply String.eqb_neq. congruence.
Qed.

Lemma header_clicked rev m w headerName :
  enabled rev m w (TableHeaderClicked headerName) = true ->
  let c := st w in
  let w1 := step rev m w (TableHeaderClicked headerName) in
  sortBy (st w1) = headerName
  /\ order (st w1)
     = (if String.eqb headerName (sortBy c)
        then if String.eqb (order c) "asc" then "desc" else "asc"
        else "asc")
  /\ searchText (st w1) = searchText c
  /\ exists call k,
       calls w1 = calls w ++ [call] /\ gl_searchAfter call = []
       /\ inflight w1 = inflight w ++ [k] /\ isSearch k = true
       /\ call = match rev with
                 | Callbacks => mkGetList (searchText c) (sortBy c) (order c) []
                 | Effects => mkGetList (searchText c) (sortBy (st w1)) (order (st w1)) []
                 end.
Proof.
  intros He. simpl. destruct rev.
  - rewrite (step_enabled_Callbacks _ _ _ He). simpl.
    unfold Tokens.tableHeaderClicked.
    destruct (String.eqb_spec headerName (sortBy (st w))) as [->|Hne]; simpl;
      repeat split; do 2 eexists; repeat split; reflexivity.
  - rewrite (step_enabled_Effects _ _ _ He). simpl.
    unfold TokensFx.tableHeaderClicked.
    destruct (String.eqb_spec headerName (sortBy (st w))) as [->|Hne]; simpl.
    + assert (Hd : TokensFx.sameDeps (st w)
                     (setIsSearchLoading true
                        (setOrder (if String.eqb (order (st w)) "asc" then "desc" else "asc")
                           (st w))) = false).
      { unfold TokensFx.sameDeps. simpl.
        destruct (String.eqb_spec (order (st w)) "asc") as [->|Hne]; simpl.
        - by rewrite !andb_false_r.
        - apply String.eqb_neq in Hne. by rewrite Hne, !andb_false_r. }
      unfold TokensFx.rerender. simpl. rewrite Hd.
      unfold TokensFx.searchEffect. simpl.
      repeat split; do 2 eexists; repeat split; reflexivity.
    + assert (Hd : TokensFx.sameDeps (st w)
                     (setIsSearchLoading true (setOrder "asc" (setSortBy headerName (st w))))
                   = false).
      { unfold TokensFx.sameDeps. simpl. rewrite (String_eqb_comm (sortBy (st w))).
        apply String.eqb_neq in Hne. by rewrite Hne, !andb_false_r. }
      unfold TokensFx.rerender. simpl. rewrite Hd.
      unfold TokensFx.searchEffect. simpl.
      repeat split; do 2 eexists; repeat split; reflexivity.
Qed.

(** What a header click does to the sort state and to the paging state, in
    both revisions: [headerName] becomes the sort field; the order flips
    between ["asc"] and ["desc"] when it was the sort field already and
    becomes ["asc"] when it was not; one page-1 request with the empty cursor
    is sent, and when it resolves the screen is back on page 1 with the cursor
    table reset.  Which query that request carries is told by
    [header_clicked]. *)
Theorem table_header_clicked rev m w headerName tokensRequest :
  enabled rev m w (TableHeaderClicked headerName) = true ->
  inflight w = [] ->
  let c := st w in
  let w1 := step rev m w (TableHeaderClicked headerName) in
  let w2 := step rev m w1 (Resolved 0 tokensRequest) in
  sortBy (st w1) = headerName
  /\ (headerName = sortBy c ->
        (order c = "asc" -> order (st w1) = "desc")
        /\ (order c = "desc" -> order (st w1) = "asc")
        /\ (order c <> "asc" -> order (st w1) = "asc"))
  /\ (headerName <> sortBy c -> order (st w1) = "asc")
  /\ (exists call k, calls w1 = calls w ++ [call] /\ gl_searchAfter call = []
                     /\ inflight w1 = [k] /\ isSearch k = true)
  /\ sortBy (st w2) = headerName
  /\ order (st w2) = order (st w1)
  /\ page (st w2) = 1%Z
  /\ hasBefore (st w2) = false
  /\ pageSearchAfter (st w2) = [ {| pe_page := 1; pe_searchAfter := [] |} ].
Proof.
  intros He Hin.
  destruct (header_clicked rev m w headerName He)
    as (Hs & Ho & _ & call & k & Hc & Hcur & Hk & Hsearch & _).
  simpl in *. rewrite Hin in Hk. simpl in Hk.
  destruct (resolved_search rev m _ k [] tokensRequest Hk Hsearch)
    as ([_ _ _ _ _ Hs2 Ho2] & Hp & Hb & _ & Ht & _).
  split; [exact Hs|]. split; [|split; [|split; [|by rewrite Hs2, Ho2]]].
  - intros ->. rewrite String.eqb_refl in Ho. repeat split.
    + intros Hasc. by rewrite Hasc in Ho.
    + intros Hdesc. by rewrite Hdesc in Ho.
    + intros Hne. apply String.eqb_neq in Hne. by rewrite Hne in Ho.
  - intros Hne. apply String.eqb_neq in Hne. by rewrite Hne in Ho.
  - by exists call, k.
Qed.

(** C7 against [Tokens.js].  Page 1 of the default query is on display,
    sorted by ["transaction_timestamp"], ["desc"], and the user clicks the
    header ["amount"].  The sort state becomes ["amount"], ["asc"] and the
    screen is reset to page 1, but the request that was sent asks for
    ["transaction_timestamp"], ["desc"]: the rows put on display are those of
    the previous sort, under a URL that names the new one.  The revision with
    the search effect, in the same situation, asks for ["amount"], ["asc"]. *)
Lemma header_click_requests_previous_sort :
  (sortBy (st (Sample.loaded Callbacks)) = "transaction_timestamp"
   /\ order (st (Sample.loaded Callbacks)) = "desc"
   /\ enabled Callbacks false (Sample.loaded Callbacks) (TableHeaderClicked "amount") = true
   /\ sortBy (st (step Callbacks false (Sample.loaded Callbacks) (TableHeaderClicked "amount")))
      = "amount"
   /\ order (st (step Callbacks false (Sample.loaded Callbacks) (TableHeaderClicked "amount")))
      = "asc"
   /\ last (calls (step Callbacks false (Sample.loaded Callbacks)
                     (TableHeaderClicked "amount")))
      = Some {| gl_searchText := ""; gl_sortBy := "transaction_timestamp";
                gl_order := "desc"; gl_searchAfter := [] |}
   /\ tokens (st (click Callbacks false (TableHeaderClicked "amount") Sample.secondPage
                    (Sample.loaded Callbacks)))
      = hits (getTokens_rows Sample.secondPage)
   /\ page (st (click Callbacks false (TableHeaderClicked "amount") Sample.secondPage
                  (Sample.loaded Callbacks))) = 1%Z
   /\ last (history (click Callbacks false (TableHeaderClicked "amount") Sample.secondPage
                       (Sample.loaded Callbacks)))
      = Some {| url_searchText := ""; url_sortBy := "amount"; url_order := "asc" |})
  /\ (enabled Effects false (Sample.loaded Effects) (TableHeaderClicked "amount") = true
      /\ sortBy (st (step Effects false (Sample.loaded Effects) (TableHeaderClicked "amount")))
         = "amount"
      /\ order (st (step Effects false (Sample.loaded Effects) (TableHeaderClicked "amount")))
         = "asc"
      /\ last (calls (step Effects false (Sample.loaded Effects)
                        (TableHeaderClicked "amount")))
         = Some {| gl_searchText := ""; gl_sortBy := "amount"; gl_order := "asc";
                   gl_searchAfter := [] |}).
Proof. vm_compute. repeat split. Qed.

(** C5, as stated, fails.  On [Sample.revisited] page 1 is on display and the
    table has an entry for page 2, with the empty cursor.  A "next" click
    appends a second entry for page 2 and sends the [sort] of the last row on
    display, not the cursor of the entry that was there. *)
Lemma cached_empty_cursor_is_recomputed :
  (page (st (Sample.revisited Callbacks)) = 1%Z
   /\ find_page 2 (pageSearchAfter (st (Sample.revisited Callbacks)))
      = Some {| pe_page := 2; pe_searchAfter := [] |}
   /\ pageSearchAfter (st (step Callbacks false (Sample.revisited Callbacks) NextPageClicked))
      = pageSearchAfter (st (Sample.revisited Callbacks))
          ++ [ {| pe_page := 2;
                  pe_searchAfter := [SortNumber 20; SortString "00b2"] |} ]
   /\ gl_searchAfter
        <$> last (calls (step Callbacks false (Sample.revisited Callbacks) NextPageClicked))
      = Some [SortNumber 20; SortString "00b2"])
  /\ (page (st (Sample.revisited Effects)) = 1%Z
      /\ find_page 2 (pageSearchAfter (st (Sample.revisited Effects)))
         = Some {| pe_page := 2; pe_searchAfter := [] |}
      /\ pageSearchAfter (st (step Effects false (Sample.revisited Effects) NextPageClicked))
         = pageSearchAfter (st (Sample.revisited Effects))
             ++ [ {| pe_page := 2;
                     pe_searchAfter := [SortNumber 20; SortString "00b2"] |} ]
      /\ gl_searchAfter
           <$> last (calls (step Effects false (Sample.revisited Effects) NextPageClicked))
         = Some [SortNumber 20; SortString "00b2"]).
Proof. vm_compute. repeat split. Qed.

(** ** Mounting *)

(** The value a query parameter gets when the URL does not have it. *)
Lemma mounted_state rev queryParams :
  let w := mounted rev false queryParams in
  let fallback (callbacks : string) : string :=
    match rev with Callbacks => callbacks | Effects => "" end in
  searchText (st w) = get (queryParams !! "searchText") (fallback "")
  /\ sortBy (st w) = get (queryParams !! "sortBy") (fallback "transaction_timestamp")
  /\ order (st w) = get (queryParams !! "order") (fallback "desc")
  /\ page (st w) = 1%Z
  /\ exists call k,
       calls w = [call] /\ inflight w = [k] /\ isSearch k = true
       /\ call = match rev with
                 | Callbacks => mkGetList "" "transaction_timestamp" "desc" []
                 | Effects => mkGetList (searchText (st w)) (sortBy (st w)) (order (st w)) []
                 end.
Proof.
  destruct rev; simpl.
  - unfold Tokens.mounted. simpl. repeat split. do 2 eexists. repeat split.
  - unfold TokensFx.mounted, TokensFx.rerender. simpl.
    repeat split; do 2 eexists; repeat split; reflexivity.
Qed.

(** C8, as the code has it.  Mounted outside maintenance mode, the screen
    sets [searchText], [sortBy] and [order] to the query parameters of the URL
    that are present; for those that are absent [Tokens.js] keeps [""],
    ["transaction_timestamp"] and ["desc"], and the revision with the search
    effect takes [""] for all three.  One page-1 request with the empty cursor
    is sent at once; in the revision with the search effect it carries exactly
    the three values just set, so it is determined by the URL. *)
Theorem mount_reads_url rev queryParams :
  let w := mounted rev false queryParams in
  searchText (st w) = get (queryParams !! "searchText") ""
  /\ sortBy (st w)
     = get (queryParams !! "sortBy")
         (match rev with Callbacks => "transaction_timestamp" | Effects => "" end)
  /\ order (st w)
     = get (queryParams !! "order") (match rev with Callbacks => "desc" | Effects => "" end)
  /\ (exists call k, calls w = [call] /\ gl_searchAfter call = []
                     /\ inflight w = [k] /\ isSearch k = true)
  /\ (rev = Effects ->
      calls w = [ {| gl_searchText := searchText (st w); gl_sortBy := sortBy (st w);
                     gl_order := order (st w); gl_searchAfter := [] |} ]).
Proof.
  destruct (mounted_state rev queryParams) as (Ht & Hs & Ho & _ & call & k & Hc & Hk & Hsr & Hcall).
  simpl in *. split; [by destruct rev|]. split; [exact Hs|]. split; [exact Ho|]. split.
  - exists call, k. repeat split; try done. subst call. by destruct rev.
  - intros ->. by rewrite Hc, Hcall.
Qed.

(** C8, as stated, fails.  With no query parameter the revision with the
    search effect sorts by [""], [""], not by ["transaction_timestamp"],
    ["desc"]; and [Tokens.js], opened on a link that asks for [name], [asc],
    shows that sort in its state and in the URL but requests
    ["transaction_timestamp"], ["desc"]. *)
Lemma mount_defaults_differ :
  (sortBy (st (mounted Effects false Sample.noParams)) = ""
   /\ order (st (mounted Effects false Sample.noParams)) = ""
   /\ calls (mounted Effects false Sample.noParams)
      = [ {| gl_searchText := ""; gl_sortBy := ""; gl_order := ""; gl_searchAfter := [] |} ])
  /\ (sortBy (st (mounted Callbacks false Sample.sharedLink)) = "name"
      /\ order (st (mounted Callbacks false Sample.sharedLink)) = "asc"
      /\ calls (mounted Callbacks false Sample.sharedLink)
         = [ {| gl_searchText := ""; gl_sortBy := "transaction_timestamp";
                gl_order := "desc"; gl_searchAfter := [] |} ]).
Proof. vm_compute. repeat split. Qed.

(** ** Maintenance mode *)

Lemma mounted_maintenance rev queryParams :
  mounted rev true queryParams = initialScreen.
Proof. by destruct rev. Qed.

Lemma step_maintenance rev e : step rev true initialScreen e = initialScreen.
Proof.
  apply step_disabled. destruct rev, e; reflexivity.
Qed.

(** C9.  Mounted in maintenance mode, the component never calls
    [tokensApi.getList], whatever happens afterwards, and renders the
    maintenance notice where the search field would be and nothing where the
    table would be. *)
Theorem maintenance_never_fetches rev queryParams events :
  let w := run rev true (mounted rev true queryParams) events in
  calls w = []
  /\ inflight w = []
  /\ renderSearchField rev true (st w) = UnderMaintenance
  /\ renderTokensTable rev true (st w) = NoTable.
Proof.
  simpl. rewrite mounted_maintenance.
  assert (Hrun : run rev true initialScreen events = initialScreen).
  { induction events as [|e events IH]; [reflexivity|].
    simpl. rewrite step_maintenance. exact IH. }
  rewrite Hrun. by destruct rev.
Qed.

(** ** The dashboard reducer *)

Section DashboardProperties.
Import Dashboard.

Lemma Math_max_zero q :
  Math_max 0 q = if is_nan q then nan else if (0 <? q)%float then q else 0%float.
Proof.
  unfold Math_max. change (is_nan 0) with false. simpl.
  destruct (is_nan q); [reflexivity|].
  destruct (0 <? q)%float; [reflexivity|].
  change (is_zero 0 && get_sign 0) with false.
  by destruct (q <? 0)%float.
Qed.

Lemma ltb_leb x y : (x <? y)%float = true -> (x <=? y)%float = true.
Proof.
  rewrite ltb_spec, leb_spec. unfold SFltb, SFleb.
  by destruct (SFcompare _ _) as [[]|].
Qed.

Lemma Math_max_nonNegativeFinite q :
  is_finite q = true -> nonNegativeFinite (Some (Math_max 0 q)) = true.
Proof.
  intros Hq. rewrite Math_max_zero. unfold nonNegativeFinite.
  destruct (is_nan q) eqn:Hnan.
  - unfold is_finite in Hq. by rewrite Hnan in Hq.
  - destruct (0 <? q)%float eqn:Hlt.
    + by rewrite Hq, (ltb_leb _ _ Hlt).
    + reflexivity.
Qed.

Lemma ltb_zero_asym q : (0 <? q)%float = true -> (q <? 0)%float = false.
Proof.
  rewrite !ltb_spec. change (Prim2SF 0) with (S754_zero false).
  unfold SFltb. destruct (Prim2SF q) as [s|s| |s mq e]; simpl; try done; by destruct s.
Qed.

Lemma Math_max_not_belowZero q : belowZero (Some (Math_max 0 q)) = false.
Proof.
  simpl. rewrite Math_max_zero. destruct (is_nan q); [reflexivity|].
  destruct (0 <? q)%float eqn:Hlt; [by apply ltb_zero_asym | reflexivity].
Qed.

Lemma insert_last {A} (l : list A) (x y : A) : <[length l := y]> (l ++ [x]) = l ++ [y].
Proof. induction l as [|a l IH]; simpl; [reflexivity | by rewrite IH]. Qed.

Lemma index_before_last {A} (l : list A) (x : A) :
  index (l ++ [x]) (Z.of_nat (length (l ++ [x])) - 2) = last l.
Proof.
  rewrite length_app. simpl. unfold index. destruct l as [|a l]; [reflexivity|].
  simpl length. destruct (Z.ltb_spec (Z.of_nat (S (length l) + 1) - 2) 0) as [Hlt|_]; [lia|].
  replace (Z.to_nat (Z.of_nat (S (length l) + 1) - 2)) with (length l) by lia.
  rewrite lookup_app_l by (simpl; lia). by rewrite last_lookup.
Qed.

Lemma rootReducer_update D state payload :
  (1 <= D)%Z ->
  let newData := setDate (Some (time payload * 1000)%float) payload in
  exists kept,
    (kept = data state \/ kept = shift (data state))
    /\ rootReducer D state (dashboard_update payload)
       = Some {| data :=
                   kept ++ [ setTxRate
                               match last kept with
                               | None => Some 0%float
                               | Some beforeLastData =>
                                   let timeDiff :=
                                     (time beforeLastData - time newData)%float in
                                   let txDiff :=
                                     (transactions beforeLastData - transactions newData)%float in
                                   if (timeDiff =? 0)%float then txRate beforeLastData
                                   else Some (Math_max 0 (txDiff / timeDiff))
                               end newData ] |}.
Proof.
  intros HD newData. unfold rootReducer. fold newData.
  assert (Hkept : exists kept,
             (kept = data state \/ kept = shift (data state))
             /\ (if (D <? Z.of_nat (length (data state ++ [newData])))%Z
                 then shift (data state ++ [newData]) else data state ++ [newData])
                = kept ++ [newData]).
  { destruct (D <? _)%Z eqn:Hlt.
    - exists (shift (data state)). split; [by right|].
      apply Z.ltb_lt in Hlt. rewrite length_app in Hlt. simpl in Hlt.
      destruct (data state) as [|a l]; [simpl in Hlt; lia | reflexivity].
    - exists (data state). split; [by left | reflexivity]. }
  destruct Hkept as (kept & Hcase & ->). exists kept. split; [exact Hcase|].
  rewrite index_before_last.
  replace (pred (length (kept ++ [newData]))) with (length kept)
    by (rewrite length_app; simpl; lia).
  destruct kept as [|a l]; [reflexivity|].
  replace (Z.of_nat (length ((a :: l) ++ [newData])) =? 1)%Z with false
    by (symmetry; apply Z.eqb_neq; rewrite length_app; simpl; lia).
  destruct (last (a :: l)) as [beforeLastData|] eqn:Hlast.
  - simpl. destruct (_ =? 0)%float; by rewrite insert_last.
  - by apply last_None in Hlast.
Qed.



(** C10, as the code has it.  With a chart of at least one sample the
    reducer returns a state whose last sample is the new one.  Its [txRate] is
    0 when it is the only sample; otherwise it is the [txRate] of the sample
    before it when [timeDiff === 0], and [Math.max(0, txDiff / timeDiff)] when
    not, so the division is only made by a [timeDiff] that is not zero.  The
    new [txRate] is not below zero if the previous one is not, and it is a
    non-negative finite number provided the previous one is and the quotient,
    when taken, is finite. *)
Theorem dashboard_update_txRate D state payload :
  (1 <= D)%Z ->
  exists state' newData,
    rootReducer D state (dashboard_update payload) = Some state'
    /\ last (data state') = Some newData
    /\ time newData = time payload
    /\ transactions newData = transactions payload
    /\ match index (data state') (Z.of_nat (length (data state')) - 2) with
       | None => txRate newData = Some 0%float
       | Some beforeLastData =>
           let timeDiff := (time beforeLastData - time newData)%float in
           let txDiff := (transactions beforeLastData - transactions newData)%float in
           (if (timeDiff =? 0)%float then txRate newData = txRate beforeLastData
            else txRate newData = Some (Math_max 0 (txDiff / timeDiff)))
           /\ (belowZero (txRate beforeLastData) = false ->
               belowZero (txRate newData) = false)
           /\ (nonNegativeFinite (txRate beforeLastData) = true ->
               ((timeDiff =? 0)%float = false -> is_finite (txDiff / timeDiff) = true) ->
               nonNegativeFinite (txRate newData) = true)
       end.
Proof.
  intros HD. destruct (rootReducer_update D state payload HD) as (kept & _ & Hr).
  simpl in Hr. eexists. eexists. split; [exact Hr|]. simpl.
  split; [apply last_snoc|]. split; [reflexivity|]. split; [reflexivity|].
  rewrite index_before_last. destruct (last kept) as [beforeLastData|]; [|reflexivity].
  simpl. destruct (_ =? 0)%float eqn:Hzero.
  - split; [reflexivity|]. split; [done|]. by intros Hprev _.
  - split; [reflexivity|]. split; [intros _; apply Math_max_not_belowZero|].
    intros _ Hq. apply Math_max_nonNegativeFinite. by apply Hq.
Qed.

End DashboardProperties.

(** C10, as stated, fails: the first sample has [txRate] 0; the second one
    comes one smallest positive double later with two more transactions, the
    quotient overflows, and its [txRate] is [Infinity]. *)
Lemma txRate_overflows :
  Dashboard.rootReducer 200 Dashboard.initialState (Dashboard.dashboard_update Ticks.first)
  = Some Ticks.afterFirst
  /\ Dashboard.nonNegativeFinite
       (default None (Dashboard.txRate <$> last (Dashboard.data Ticks.afterFirst))) = true
  /\ (Dashboard.time Ticks.first - Dashboard.time Ticks.second =? 0)%float = false
  /\ (Dashboard.txRate <$>
        (Dashboard.rootReducer 200 Ticks.afterFirst (Dashboard.dashboard_update Ticks.second)
           ≫= fun state' => last (Dashboard.data state')))
     = Some (Some infinity)
  /\ Dashboard.nonNegativeFinite (Some infinity) = false.
Proof. vm_compute. repeat split. Qed.

Lemma dashboard_update_txRate_witness :
  (1 <= 200)%Z
  /\ exists state' newData,
       Dashboard.rootReducer 200 Ticks.afterFirst (Dashboard.dashboard_update Ticks.second)
       = Some state'
       /\ last (Dashboard.data state') = Some newData
       /\ Dashboard.time newData = Dashboard.time Ticks.second
       /\ Dashboard.transactions newData = Dashboard.transactions Ticks.second
       /\ match Dashboard.index (Dashboard.data state')
                  (Z.of_nat (length (Dashboard.data state')) - 2) with
          | None => Dashboard.txRate newData = Some 0%float
          | Some beforeLastData =>
              let timeDiff := (Dashboard.time beforeLastData - Dashboard.time newData)%float in
              let txDiff :=
                (Dashboard.transactions beforeLastData - Dashboard.transactions newData)%float in
              (if (timeDiff =? 0)%float
               then Dashboard.txRate newData = Dashboard.txRate beforeLastData
               else Dashboard.txRate newData = Some (Dashboard.Math_max 0 (txDiff / timeDiff)))
              /\ (Dashboard.belowZero (Dashboard.txRate beforeLastData) = false ->
                  Dashboard.belowZero (Dashboard.txRate newData) = false)
              /\ (Dashboard.nonNegativeFinite (Dashboard.txRate beforeLastData) = true ->
                  ((timeDiff =? 0)%float = false -> is_finite (txDiff / timeDiff) = true) ->
                  Dashboard.nonNegativeFinite (Dashboard.txRate newData) = true)
          end.
Proof.
  assert (H : (1 <= 200)%Z) by lia.
  split; [exact H|].
  exact (dashboard_update_txRate 200 Ticks.afterFirst Ticks.second H).
Defined.

(** ** The theorems at work on the sample traffic *)

Lemma forward_cursor_table_witness :
  forward Callbacks false (Sample.onSecond Callbacks) Sample.shownTwo
  /\ find_page 1 (pageSearchAfter (st (Sample.onSecond Callbacks)))
     = Some {| pe_page := 1; pe_searchAfter := [] |}
  /\ (forall e, e ∈ pageSearchAfter (st (Sample.onSecond Callbacks)) ->
        (pe_page e = 1%Z /\ pe_searchAfter e = [])
        \/ ((1 < pe_page e <= page (st (Sample.onSecond Callbacks)))%Z
            /\ exists rows,
                 Sample.shownTwo !! Z.to_nat (pe_page e - 2) = Some rows
                 /\ pe_searchAfter e = lastCurrentTokenSort rows
                 /\ forall row c, last rows = Some row -> tk_sort row = Some c ->
                                  pe_searchAfter e = c))
  /\ (forall N, (1 < N <= page (st (Sample.onSecond Callbacks)))%Z ->
        exists e, find_page N (pageSearchAfter (st (Sample.onSecond Callbacks))) = Some e)
  /\ page (st (Sample.onSecond Callbacks)) = Z.of_nat (length Sample.shownTwo).
Proof.
  assert (H : forward Callbacks false (Sample.onSecond Callbacks) Sample.shownTwo).
  { apply (forward_next Callbacks false (Sample.loaded Callbacks)
             [hits (getTokens_rows Sample.firstPage)] Sample.secondPage).
    - eapply (forward_search Callbacks false (mounted Callbacks false Sample.noParams)
                _ Sample.firstPage); reflexivity.
    - reflexivity.
    - reflexivity. }
  split; [exact H|].
  exact (forward_cursor_table Callbacks false _ _ H).
Defined.

Lemma query_change_resets_witness :
  isQueryChange (SearchTextKeyUp "Enter") = true
  /\ enabled Effects false (Sample.onSecond Effects) (SearchTextKeyUp "Enter") = true
  /\ inflight (Sample.onSecond Effects) = []
  /\ isSearchLoading (st (Sample.onSecond Effects)) = false
  /\ let w1 := step Effects false (Sample.onSecond Effects) (SearchTextKeyUp "Enter") in
     let w2 := step Effects false w1 (Resolved 0 Sample.firstPage) in
     (exists c k, calls w1 = calls (Sample.onSecond Effects) ++ [c] /\ gl_searchAfter c = []
                  /\ inflight w1 = [k] /\ isSearch k = true)
     /\ inflight w2 = []
     /\ page (st w2) = 1%Z
     /\ hasBefore (st w2) = false
     /\ pageSearchAfter (st w2) = [ {| pe_page := 1; pe_searchAfter := [] |} ].
Proof.
  assert (H1 : isQueryChange (SearchTextKeyUp "Enter") = true) by reflexivity.
  assert (H2 : enabled Effects false (Sample.onSecond Effects) (SearchTextKeyUp "Enter") = true)
    by reflexivity.
  assert (H3 : inflight (Sample.onSecond Effects) = []) by reflexivity.
  assert (H4 : isSearchLoading (st (Sample.onSecond Effects)) = false) by reflexivity.
  repeat (split; [assumption|]).
  exact (query_change_resets Effects false _ _ Sample.firstPage H1 H2 H3 H4).
Defined.

Lemma previous_page_witness :
  (1 < page (st (Sample.onSecond Callbacks)))%Z
  /\ enabled Callbacks false (Sample.onSecond Callbacks) PreviousPageClicked = true
  /\ inflight (Sample.onSecond Callbacks) = []
  /\ let P := page (st (Sample.onSecond Callbacks)) in
     let w1 := step Callbacks false (Sample.onSecond Callbacks) PreviousPageClicked in
     let w2 := step Callbacks false w1 (Resolved 0 Sample.secondPage) in
     (exists c, calls w1 = calls (Sample.onSecond Callbacks) ++ [c]
                /\ gl_searchAfter c
                   = cachedSearchAfter (P - 1) (pageSearchAfter (st (Sample.onSecond Callbacks)))
                /\ forall e,
                     find_page (P - 1) (pageSearchAfter (st (Sample.onSecond Callbacks)))
                     = Some e ->
                     gl_searchAfter c = pe_searchAfter e)
     /\ (browsing Callbacks false (Sample.onSecond Callbacks) ->
           exists e, find_page (P - 1) (pageSearchAfter (st (Sample.onSecond Callbacks)))
                     = Some e)
     /\ hasAfter (st w2) = true
     /\ hasBefore (st w2) = negb (P - 1 =? 1)%Z
     /\ page (st w2) = (P - 1)%Z.
Proof.
  assert (H1 : (1 < page (st (Sample.onSecond Callbacks)))%Z) by (vm_compute; reflexivity).
  assert (H2 : enabled Callbacks false (Sample.onSecond Callbacks) PreviousPageClicked = true)
    by reflexivity.
  assert (H3 : inflight (Sample.onSecond Callbacks) = []) by reflexivity.
  repeat (split; [assumption|]).
  exact (previous_page Callbacks false _ Sample.secondPage H1 H2 H3).
Defined.

Lemma error_flag_witness :
  (inflight (mounted Callbacks false Sample.noParams) !! 0
   = Some (AwaitSearch (Some {| url_searchText := ""; url_sortBy := "transaction_timestamp";
                                url_order := "desc" |}) true)
   /\ resp_error Sample.failed = Some true
   /\ error (st (Sample.afterFailure Callbacks)) = true
   /\ renderTokensTable Callbacks false (st (Sample.afterFailure Callbacks))
      = ErrorLoadingTokens)
  /\ (isQueryChange (SearchButtonClicked None None None) = true
      /\ enabled Callbacks false (Sample.afterFailure Callbacks)
           (SearchButtonClicked None None None) = true
      /\ inflight (Sample.afterFailure Callbacks) = []
      /\ isSearchLoading (st (Sample.afterFailure Callbacks)) = false
      /\ (exists c, calls (Sample.searchingAgain Callbacks)
                    = calls (Sample.afterFailure Callbacks) ++ [c])
      /\ error (st (Sample.searchingAgain Callbacks)) = error (st (Sample.afterFailure Callbacks))
      /\ error (st (step Callbacks false (Sample.searchingAgain Callbacks)
                      (Resolved 0 Sample.firstPage)))
         = get (resp_error Sample.firstPage) false).
Proof.
  split.
  - assert (H1 : inflight (mounted Callbacks false Sample.noParams) !! 0
                 = Some (AwaitSearch (Some {| url_searchText := "";
                                              url_sortBy := "transaction_timestamp";
                                              url_order := "desc" |}) true)) by reflexivity.
    assert (H2 : resp_error Sample.failed = Some true) by reflexivity.
    repeat (split; [assumption|]).
    exact (proj1 (error_flag Callbacks false (mounted Callbacks false Sample.noParams))
             0 _ Sample.failed H1 H2).
  - assert (H1 : isQueryChange (SearchButtonClicked None None None) = true) by reflexivity.
    assert (H2 : enabled Callbacks false (Sample.afterFailure Callbacks)
                   (SearchButtonClicked None None None) = true) by reflexivity.
    assert (H3 : inflight (Sample.afterFailure Callbacks) = []) by reflexivity.
    assert (H4 : isSearchLoading (st (Sample.afterFailure Callbacks)) = false) by reflexivity.
    repeat (split; [assumption|]).
    exact (proj2 (error_flag Callbacks false (Sample.afterFailure Callbacks))
             _ Sample.firstPage H1 H2 H3 H4).
Defined.

Lemma next_page_cursor_witness :
  enabled Effects false (Sample.loaded Effects) NextPageClicked = true
  /\ let c := st (Sample.loaded Effects) in
     let target := (page c + 1)%Z in
     let w1 := step Effects false (Sample.loaded Effects) NextPageClicked in
     let sent cursor :=
       calls w1 = calls (Sample.loaded Effects)
                    ++ [ {| gl_searchText := searchText c; gl_sortBy := sortBy c;
                            gl_order := order c; gl_searchAfter := cursor |} ] in
     (forall e, find_page target (pageSearchAfter c) = Some e ->
                pe_searchAfter e <> [] ->
                sent (pe_searchAfter e) /\ pageSearchAfter (st w1) = pageSearchAfter c)
     /\ ((find_page target (pageSearchAfter c) = None
          \/ exists e, find_page target (pageSearchAfter c) = Some e
                       /\ pe_searchAfter e = []) ->
         sent (lastCurrentTokenSort (tokens c))
         /\ pageSearchAfter (st w1)
            = pageSearchAfter c
                ++ [ {| pe_page := target;
                        pe_searchAfter := lastCurrentTokenSort (tokens c) |} ]).
Proof.
  assert (H : enabled Effects false (Sample.loaded Effects) NextPageClicked = true)
    by reflexivity.
  split; [exact H|].
  exact (next_page_cursor Effects false (Sample.loaded Effects) H).
Defined.

Lemma next_from_first_page_witness :
  inflight (mounted Callbacks false Sample.noParams)
  = [AwaitSearch (Some {| url_searchText := ""; url_sortBy := "transaction_timestamp";
                          url_order := "desc" |}) true]
  /\ searchText (st (mounted Callbacks false Sample.noParams)) = ""
  /\ sortBy (st (mounted Callbacks false Sample.noParams)) = "transaction_timestamp"
  /\ order (st (mounted Callbacks false Sample.noParams)) = "desc"
  /\ get (resp_error (Sample.found Sample.twentyRows true)) false = false
  /\ resp_data (Sample.found Sample.twentyRows true)
     = Some {| hits := Sample.twentyRows; has_next := true |}
  /\ length Sample.twentyRows = 20
  /\ Sample.twentyRows !! 19 = Some (Sample.row "t" 81)
  /\ tk_sort (Sample.row "t" 81) = Some [SortNumber 81; SortString "t"]
  /\ let w := step Callbacks false (mounted Callbacks false Sample.noParams)
                (Resolved 0 (Sample.found Sample.twentyRows true)) in
     let w1 := step Callbacks false w NextPageClicked in
     let w2 := step Callbacks false w1 (Resolved 0 Sample.secondPage) in
     page (st w) = 1%Z
     /\ hasAfter (st w) = true
     /\ length (tokens (st w)) = 20
     /\ calls w1 = calls w ++ [ {| gl_searchText := ""; gl_sortBy := "transaction_timestamp";
                                   gl_order := "desc";
                                   gl_searchAfter := [SortNumber 81; SortString "t"] |} ]
     /\ page (st w2) = 2%Z
     /\ hasBefore (st w2) = true.
Proof.
  assert (H1 : inflight (mounted Callbacks false Sample.noParams)
               = [AwaitSearch (Some {| url_searchText := "";
                                       url_sortBy := "transaction_timestamp";
                                       url_order := "desc" |}) true]) by reflexivity.
  assert (H2 : isSearch (AwaitSearch (Some {| url_searchText := "";
                                              url_sortBy := "transaction_timestamp";
                                              url_order := "desc" |}) true) = true)
    by reflexivity.
  assert (H3 : searchText (st (mounted Callbacks false Sample.noParams)) = "") by reflexivity.
  assert (H4 : sortBy (st (mounted Callbacks false Sample.noParams)) = "transaction_timestamp")
    by reflexivity.
  assert (H5 : order (st (mounted Callbacks false Sample.noParams)) = "desc") by reflexivity.
  assert (H6 : get (resp_error (Sample.found Sample.twentyRows true)) false = false)
    by reflexivity.
  assert (H7 : resp_data (Sample.found Sample.twentyRows true)
               = Some {| hits := Sample.twentyRows; has_next := true |}) by reflexivity.
  assert (H8 : length Sample.twentyRows = 20) by reflexivity.
  assert (H9 : Sample.twentyRows !! 19 = Some (Sample.row "t" 81)) by reflexivity.
  assert (H10 : tk_sort (Sample.row "t" 81) = Some [SortNumber 81; SortString "t"])
    by reflexivity.
  repeat (split; [assumption|]).
  exact (next_from_first_page Callbacks _ _ _ _ _ _ Sample.secondPage
           H1 H2 H3 H4 H5 H6 H7 H8 H9 H10).
Defined.

Lemma table_header_clicked_witness :
  enabled Callbacks false (Sample.loaded Callbacks) (TableHeaderClicked "amount") = true
  /\ inflight (Sample.loaded Callbacks) = []
  /\ sortBy (st (Sample.loaded Callbacks)) = "transaction_timestamp"
  /\ order (st (Sample.loaded Callbacks)) = "desc"
  /\ let c := st (Sample.loaded Callbacks) in
     let w1 := step Callbacks false (Sample.loaded Callbacks) (TableHeaderClicked "amount") in
     let w2 := step Callbacks false w1 (Resolved 0 Sample.secondPage) in
     sortBy (st w1) = "amount"
     /\ ("amount" = sortBy c ->
           (order c = "asc" -> order (st w1) = "desc")
           /\ (order c = "desc" -> order (st w1) = "asc")
           /\ (order c <> "asc" -> order (st w1) = "asc"))
     /\ ("amount" <> sortBy c -> order (st w1) = "asc")
     /\ (exists call k, calls w1 = calls (Sample.loaded Callbacks) ++ [call]
                        /\ gl_searchAfter call = []
                        /\ inflight w1 = [k] /\ isSearch k = true)
     /\ sortBy (st w2) = "amount"
     /\ order (st w2) = order (st w1)
     /\ page (st w2) = 1%Z
     /\ hasBefore (st w2) = false
     /\ pageSearchAfter (st w2) = [ {| pe_page := 1; pe_searchAfter := [] |} ].
Proof.
  assert (H1 : enabled Callbacks false (Sample.loaded Callbacks) (TableHeaderClicked "amount")
               = true) by reflexivity.
  assert (H2 : inflight (Sample.loaded Callbacks) = []) by reflexivity.
  split; [exact H1|]. split; [exact H2|].
  split; [reflexivity|]. split; [reflexivity|].
  exact (table_header_clicked Callbacks false (Sample.loaded Callbacks) "amount"
           Sample.secondPage H1 H2).
Defined.

Lemma mount_reads_url_witness :
  Effects = Effects
  /\ calls (mounted Effects false Sample.sharedLink)
     = [ {| gl_searchText := ""; gl_sortBy := "name"; gl_order := "asc";
            gl_searchAfter := [] |} ].
Proof.
  split; [reflexivity|].
  exact (proj2 (proj2 (proj2 (proj2 (mount_reads_url Effects Sample.sharedLink)))) eq_refl).
Defined.

(** * Further properties of the Tokens screen *)

(** Case analysis on one step: which handler runs and which branch it takes. *)
Ltac step_cases rev m w e :=
  let He := fresh "He" in
  destruct (enabled rev m w e) eqn:He;
  [ first [ is_var rev; destruct rev;
            [ rewrite (step_enabled_Callbacks _ _ _ He)
            | rewrite (step_enabled_Effects _ _ _ He) ]
          | rewrite (step_enabled_Callbacks _ _ _ He)
          | rewrite (step_enabled_Effects _ _ _ He) ];
    tryif is_var e then destruct e else idtac; simpl;
    unfold Tokens.onSearchTextKeyUp, Tokens.nextPageClicked, Tokens.tableHeaderClicked,
      TokensFx.onSearchTextKeyUp, TokensFx.nextPageClicked, TokensFx.tableHeaderClicked,
      TokensFx.rerender, TokensFx.searchEffect;
    repeat (simpl;
            match goal with
            | |- context [match inflight w !! ?i with _ => _ end] =>
                destruct (inflight w !! i) as [[[?|] []| |]|]
            | |- context [if ?b then _ else _] => destruct b eqn:?
            end);
    simpl
  | rewrite (step_disabled _ _ _ _ He) ].

Lemma step_isLoading rev m w e :
  isLoading (st w) = false -> isLoading (st (step rev m w e)) = false.
Proof. intros H. step_cases rev m w e; done. Qed.


Lemma run_invariant (P : Screen -> Prop) rev m :
  (forall w e, P w -> P (step rev m w e)) ->
  forall events w, P w -> P (run rev m w events).
Proof.
  intros Hstep events. induction events as [|e events IH]; intros w Hw; [exact Hw|].
  simpl. apply IH, Hstep, Hw.
Qed.

(** X1.  [setIsLoading] is only ever called with [false]: whatever happens
    after mounting, the [loading] prop of the search field and of the table is
    false. *)
Theorem isLoading_never_true rev m queryParams events :
  let w := run rev m (mounted rev m queryParams) events in
  isLoading (st w) = false
  /\ renderSearchField rev m (st w)
     = if m then UnderMaintenance
       else TokenSearchField (searchText (st w)) (isSearchLoading (st w)) false.
Proof.
  assert (H : isLoading (st (run rev m (mounted rev m queryParams) events)) = false).
  { apply (run_invariant (fun w => isLoading (st w) = false)).
    - intros w e. apply step_isLoading.
    - by destruct rev, m. }
  simpl. split; [exact H|].
  destruct rev, m;
    cbv [renderSearchField Tokens.renderSearchField TokensFx.renderSearchField];
    by rewrite ?H.
Qed.

Lemma rows_filled tokensRequest :
  Forall (fun t => tk_uid t = Some (tk_id t) /\ exists b, tk_nft t = Some b)
         (hits (getTokens_rows tokensRequest)).
Proof.
  unfold getTokens_rows. simpl.
  induction (hits (get (resp_data tokensRequest) _)) as [|t l IH]; simpl;
    constructor; [|exact IH].
  simpl. split; [reflexivity | by eexists].
Qed.

Lemma resolved_tokens rev m w i k tokensRequest :
  inflight w !! i = Some k ->
  tokens (st (step rev m w (Resolved i tokensRequest)))
  = hits (getTokens_rows tokensRequest).
Proof.
  intros Hk.
  assert (He : enabled rev m w (Resolved i tokensRequest) = true).
  { rewrite enabled_Resolved. apply bool_decide_eq_true_2.
    by apply lookup_lt_Some in Hk. }
  destruct rev.
  - rewrite (step_enabled_Callbacks _ _ _ He). simpl. rewrite Hk.
    destruct k as [[u|] []| |]; reflexivity.
  - rewrite (step_enabled_Effects _ _ _ He). simpl. rewrite Hk.
    destruct k; simpl.
    + unfold TokensFx.rerender, TokensFx.searchEffect. simpl.
      destruct (TokensFx.sameDeps _ _); reflexivity.
    + same_deps. reflexivity.
    + same_deps. reflexivity.
Qed.

Lemma rows_follow_response tokensRequest :
  Forall2 (fun sent shown =>
             tk_id shown = tk_id sent
             /\ tk_uid shown = Some (tk_id sent)
             /\ tk_nft shown = Some (get (tk_nft sent) false)
             /\ tk_sort shown = tk_sort sent)
          (hits (get (resp_data tokensRequest) {| hits := []; has_next := false |}))
          (hits (getTokens_rows tokensRequest)).
Proof.
  unfold getTokens_rows. simpl.
  induction (hits (get (resp_data tokensRequest) _)) as [|t l IH]; simpl;
    constructor; [by repeat split | exact IH].
Qed.

(** X2.  Every row on display went through [getTokens].  At any time
    after mounting each displayed row has its [id] as [uid] and an [nft] that
    is set.  Whenever a request resolves, the rows on display are those of its
    response, one for one and in order, each with the same [id] and [sort],
    with [uid] equal to the [id], and with the [nft] the service sent, or
    [false] when it sent none. *)
Theorem displayed_rows_have_uid rev m queryParams events :
  Forall (fun t => tk_uid t = Some (tk_id t) /\ exists b, tk_nft t = Some b)
         (tokens (st (run rev m (mounted rev m queryParams) events)))
  /\ forall w i k tokensRequest,
       inflight w !! i = Some k ->
       Forall2 (fun sent shown =>
                  tk_id shown = tk_id sent
                  /\ tk_uid shown = Some (tk_id sent)
                  /\ tk_nft shown = Some (get (tk_nft sent) false)
                  /\ tk_sort shown = tk_sort sent)
               (hits (get (resp_data tokensRequest) {| hits := []; has_next := false |}))
               (tokens (st (step rev m w (Resolved i tokensRequest)))).
Proof.
  split.
  - apply (run_invariant
             (fun w => Forall (fun t => tk_uid t = Some (tk_id t)
                                        /\ exists b, tk_nft t = Some b)
                              (tokens (st w)))).
    + intros w e H. step_cases rev m w e;
        first [ exact H | match goal with r : ApiResponse |- _ => apply (rows_filled r) end ].
    + destruct rev, m; apply Forall_nil; exact I.
  - intros w i k tokensRequest Hk. rewrite (resolved_tokens rev m w i k tokensRequest Hk).
    apply rows_follow_response.
Qed.

(** X4.  A "next" request that comes back without data still turns the
    page: the screen shows page + 1 with no row, [hasAfter] false and
    [hasBefore] true, and the error flag is what the response says. *)
Theorem failed_next_still_turns_page rev m w tokensRequest :
  enabled rev m w NextPageClicked = true ->
  inflight w = [] ->
  resp_data tokensRequest = None ->
  let w2 := click rev m NextPageClicked tokensRequest w in
  page (st w2) = (page (st w) + 1)%Z
  /\ tokens (st w2) = []
  /\ hasAfter (st w2) = false
  /\ hasBefore (st w2) = true
  /\ error (st w2) = get (resp_error tokensRequest) false
  /\ inflight w2 = [].
Proof.
  intros He Hin Hdata. unfold click. simpl.
  pose proof (next_clicked rev m w He) as Hn. simpl in Hn. rewrite Hn, Hin. simpl.
  match goal with |- context [step _ _ ?w1 _] =>
    destruct (resolved_next rev m w1 (page (st w) + 1) [] tokensRequest eq_refl)
      as ([Hin' _ Herr Htok _ _ _] & Hp & Hb & Ha & _)
  end.
  rewrite Hp, Htok, Ha, Hb, Herr, Hin'.
  unfold getTokens_rows. rewrite Hdata. by simpl.
Qed.

Lemma enabled_table rev w e :
  error (st w) = false ->
  match e with
  | NextPageClicked | PreviousPageClicked | TableHeaderClicked _ => True
  | _ => False
  end ->
  enabled rev false w e = true.
Proof.
  intros He Hp. destruct rev, e; try done; simpl;
    unfold Tokens.enabled, TokensFx.enabled, Tokens.renderTokensTable,
      TokensFx.renderTokensTable; by rewrite He.
Qed.

(** X5.  The cursor cache does its job: after "next" and then "previous",
    both answered without error, a second "next" sends the very cursor the
    first one sent and leaves [pageSearchAfter] as the first one left it.
    This needs that cursor to be non-empty and the table to hold no entry with
    an empty cursor for the target page. *)
Theorem next_previous_next rev w r1 r2 :
  error (st w) = false ->
  inflight w = [] ->
  get (resp_error r1) false = false ->
  get (resp_error r2) false = false ->
  let target := (page (st w) + 1)%Z in
  let cached := cachedSearchAfter target (pageSearchAfter (st w)) in
  let cursor := if isEmpty cached then lastCurrentTokenSort (tokens (st w)) else cached in
  cursor <> [] ->
  (forall e, find_page target (pageSearchAfter (st w)) = Some e -> pe_searchAfter e <> []) ->
  let w1 := click rev false NextPageClicked r1 w in
  let w2 := click rev false PreviousPageClicked r2 w1 in
  let w3 := step rev false w2 NextPageClicked in
  gl_searchAfter <$> last (calls (step rev false w NextPageClicked)) = Some cursor
  /\ page (st w2) = page (st w)
  /\ gl_searchAfter <$> last (calls w3) = Some cursor
  /\ pageSearchAfter (st w3) = pageSearchAfter (st w1).
Proof.
  intros Herr Hin Hr1 Hr2 target cached cursor Hcur Hentries. simpl.
  pose proof (next_clicked rev false w (enabled_table rev w NextPageClicked Herr I)) as Hn.
  simpl in Hn. fold target cached cursor in Hn.
  unfold click. rewrite Hn, Hin. simpl.
  match goal with |- context [step _ _ ?w1' (Resolved 0 r1)] =>
    destruct (resolved_next rev false w1' target [] r1 eq_refl)
      as ([Hin1 _ Herr1 _ _ _ _] & Hp1 & _ & _ & Ht1 & _);
    set (w1 := step rev false w1' (Resolved 0 r1)) in *
  end.
  simpl in Hin1, Ht1. rewrite Hr1 in Herr1.
  pose proof (previous_clicked rev false w1 (enabled_table rev w1 PreviousPageClicked Herr1 I)) as Hpv.
  simpl in Hpv. rewrite Hpv, Hin1. simpl.
  match goal with |- context [step _ _ ?w2' (Resolved 0 r2)] =>
    destruct (resolved_previous rev false w2' (page (st w1) - 1) [] r2 eq_refl)
      as ([Hin2 _ Herr2 _ _ _ _] & Hp2 & _ & _ & Ht2 & _);
    set (w2 := step rev false w2' (Resolved 0 r2)) in *
  end.
  simpl in Hin2, Ht2. rewrite Hr2 in Herr2.
  pose proof (next_clicked rev false w2 (enabled_table rev w2 NextPageClicked Herr2 I)) as Hn2.
  simpl in Hn2. rewrite Hn2. simpl. rewrite !last_snoc. simpl.
  assert (Hpage : page (st w2) = page (st w)) by (rewrite Hp2, Hp1; unfold target; lia).
  assert (Htab : pageSearchAfter (st w1)
                 = if isEmpty cached
                   then pageSearchAfter (st w)
                          ++ [ {| pe_page := target;
                                  pe_searchAfter := lastCurrentTokenSort (tokens (st w)) |} ]
                   else pageSearchAfter (st w)).
  { rewrite Ht1. by destruct (isEmpty cached). }
  assert (Hcached : cachedSearchAfter (page (st w2) + 1) (pageSearchAfter (st w2)) = cursor).
  { rewrite Hpage, Ht2, Htab. fold target. unfold cursor, cached.
    destruct (find_page target (pageSearchAfter (st w))) as [e|] eqn:Hf.
    - pose proof (Hentries e eq_refl) as Hne.
      rewrite (cachedSearchAfter_Some _ _ _ Hf).
      destruct (pe_searchAfter e) eqn:Hc; [done|]. simpl.
      rewrite <- Hc. by apply cachedSearchAfter_Some.
    - rewrite (cachedSearchAfter_None _ _ Hf). cbn [isEmpty].
      apply (cachedSearchAfter_Some _ _
               {| pe_page := target;
                  pe_searchAfter := lastCurrentTokenSort (tokens (st w)) |}).
      rewrite find_page_app, Hf.
      unfold find_page. simpl. by rewrite Z.eqb_refl. }
  rewrite Hcached.
  destruct cursor as [|v cursor'] eqn:Hc; [done|]. simpl.
  repeat split; done.
Qed.

Lemma browsing_first_page rev m w :
  browsing rev m w ->
  find_page 1 (pageSearchAfter (st w)) = Some {| pe_page := 1; pe_searchAfter := [] |}.
Proof.
  induction 1 as [w k r Hk Hs | w r Hb IH He | w r Hb IH He | w v Hb IH].
  - destruct (resolved_search rev m w k [] r Hk Hs) as (_ & _ & _ & _ & Ht & _).
    by rewrite Ht.
  - destruct (browsing_invariant _ _ _ Hb) as (Hin & _ & _).
    pose proof (next_clicked rev m w He) as Hn. simpl in Hn.
    unfold click. rewrite Hn, Hin. simpl.
    match goal with |- context [step _ _ ?w1 _] =>
      destruct (resolved_next rev m w1 (page (st w) + 1) [] r eq_refl)
        as (_ & _ & _ & _ & Ht' & _)
    end.
    rewrite Ht'. destruct (isEmpty _); simpl; [|exact IH].
    by rewrite find_page_app, IH.
  - destruct (browsing_invariant _ _ _ Hb) as (Hin & _ & _).
    pose proof (previous_clicked rev m w He) as Hn. simpl in Hn.
    unfold click. rewrite Hn, Hin. simpl.
    match goal with |- context [step _ _ ?w1 _] =>
      destruct (resolved_previous rev m w1 (page (st w) - 1) [] r eq_refl)
        as (_ & _ & _ & _ & Ht' & _)
    end.
    by rewrite Ht'.
  - destruct (browsing_invariant _ _ _ Hb) as (_ & Hl & _).
    step_cases rev m w (SearchTextChanged v); first [exact IH | congruence].
Qed.

(** X6.  However the user got to page 2, "previous" asks for page 1 from
    the start: the request carries the empty cursor, and when it resolves the
    screen is on page 1 with [hasBefore] false. *)
Theorem previous_to_first_page rev m w tokensRequest :
  browsing rev m w ->
  page (st w) = 2%Z ->
  enabled rev m w PreviousPageClicked = true ->
  let w1 := step rev m w PreviousPageClicked in
  let w2 := step rev m w1 (Resolved 0 tokensRequest) in
  gl_searchAfter <$> last (calls w1) = Some []
  /\ page (st w2) = 1%Z
  /\ hasBefore (st w2) = false
  /\ hasAfter (st w2) = true.
Proof.
  intros Hb Hp He. simpl.
  destruct (browsing_invariant _ _ _ Hb) as (Hin & _ & _).
  pose proof (browsing_first_page _ _ _ Hb) as H1.
  pose proof (previous_clicked rev m w He) as Hn. cbv zeta in Hn.
  rewrite Hp, Hin in Hn. change (2 - 1)%Z with 1%Z in Hn.
  rewrite (cachedSearchAfter_Some _ _ _ H1) in Hn.
  rewrite Hn. simpl. rewrite last_snoc. simpl.
  match goal with |- context [step _ _ ?w1 _] =>
    destruct (resolved_previous rev m w1 1 [] tokensRequest eq_refl)
      as (_ & Hp' & Hb' & Ha' & _)
  end.
  by rewrite Hp', Hb', Ha'.
Qed.

(** X7.  [previousPageClicked] has no lower bound of its own: run on page
    1 it leaves the screen on page 0 with [hasBefore] and [hasAfter] both
    true. *)
Theorem previous_below_first_page rev m w tokensRequest :
  page (st w) = 1%Z ->
  enabled rev m w PreviousPageClicked = true ->
  inflight w = [] ->
  let w2 := click rev m PreviousPageClicked tokensRequest w in
  page (st w2) = 0%Z
  /\ hasBefore (st w2) = true
  /\ hasAfter (st w2) = true
  /\ pageSearchAfter (st w2) = pageSearchAfter (st w).
Proof.
  intros Hp He Hin. unfold click. simpl.
  pose proof (previous_clicked rev m w He) as Hn. cbv zeta in Hn.
  rewrite Hp, Hin in Hn. change (1 - 1)%Z with 0%Z in Hn.
  rewrite Hn. simpl.
  match goal with |- context [step _ _ ?w1 _] =>
    destruct (resolved_previous rev m w1 0 [] tokensRequest eq_refl)
      as (_ & Hp' & Hb' & Ha' & Ht' & _)
  end.
  by rewrite Hp', Hb', Ha', Ht'.
Qed.

(** ** Typing, repeated searches and requests that overlap *)

Lemma sameDeps_same s : TokensFx.sameDeps s s = true.
Proof.
  unfold TokensFx.sameDeps. by rewrite Bool.eqb_reflx, !String.eqb_refl.
Qed.

Lemma enabled_Rejected rev m w i :
  enabled rev m w (Rejected i) = bool_decide (i < length (inflight w)).
Proof. destruct rev; reflexivity. Qed.

(** X8.  Typing in the search field only records the text: in [Tokens.js]
    always, and in the revision with the search effect whenever no search is
    pending, no request is sent and the URL is not touched. *)
Theorem typing_sends_nothing rev m w value :
  rev = Callbacks \/ isSearchLoading (st w) = false ->
  enabled rev m w (SearchTextChanged value) = true ->
  step rev m w (SearchTextChanged value) = update (setSearchText value) w.
Proof.
  intros Hcase He. destruct rev.
  - by rewrite (step_enabled_Callbacks _ _ _ He).
  - destruct Hcase as [|Hl]; [done|].
    rewrite (step_enabled_Effects _ _ _ He). simpl.
    unfold TokensFx.onSearchTextChanged, TokensFx.rerender, TokensFx.searchEffect.
    simpl. rewrite Hl. simpl. by destruct (TokensFx.sameDeps _ _).
Qed.

(** X9.  In the revision with the search effect, [searchText] is a
    dependency of the effect: while a search is pending, every change of the
    text pushes a URL and sends one more page-1 request, with the new text. *)
Theorem typing_while_searching_refetches m w value :
  isSearchLoading (st w) = true ->
  value <> searchText (st w) ->
  enabled Effects m w (SearchTextChanged value) = true ->
  let w1 := step Effects m w (SearchTextChanged value) in
  calls w1 = calls w ++ [ {| gl_searchText := value; gl_sortBy := sortBy (st w);
                             gl_order := order (st w); gl_searchAfter := [] |} ]
  /\ inflight w1 = inflight w ++ [AwaitSearch None false]
  /\ length (history w1) = S (length (history w)).
Proof.
  intros Hl Hne He. cbv zeta. rewrite (step_enabled_Effects _ _ _ He). simpl.
  unfold TokensFx.onSearchTextChanged, TokensFx.rerender, TokensFx.sameDeps,
    TokensFx.searchEffect. simpl.
  assert (Hneq : String.eqb (searchText (st w)) value = false)
    by (apply String.eqb_neq; congruence).
  rewrite Hneq, Hl, !andb_false_r. simpl.
  repeat split. rewrite length_app. simpl. lia.
Qed.

Lemma setIsSearchLoading_same w :
  isSearchLoading (st w) = true -> update (setIsSearchLoading true) w = w.
Proof. destruct w as [[] ? ? ?]. simpl. by intros ->. Qed.

Lemma search_again_ignored m w e :
  isSearchLoading (st w) = true ->
  match e with SearchButtonClicked _ _ _ | SearchTextKeyUp _ => True | _ => False end ->
  step Effects m w e = w.
Proof.
  intros Hl Hq.
  destruct (enabled Effects m w e) eqn:He; [|by apply step_disabled].
  rewrite (step_enabled_Effects _ _ _ He).
  destruct e as [|key|a b o| | | | |]; try done; simpl.
  - unfold TokensFx.onSearchTextKeyUp. destruct (String.eqb key "Enter").
    + rewrite (setIsSearchLoading_same w Hl).
      unfold TokensFx.rerender. by rewrite sameDeps_same.
    + unfold TokensFx.rerender. by rewrite sameDeps_same.
  - unfold TokensFx.onSearchButtonClicked. rewrite (setIsSearchLoading_same w Hl).
    unfold TokensFx.rerender. by rewrite sameDeps_same.
Qed.

(** X10.  In the revision with the search effect a search that is asked
    for while [isSearchLoading] is set is not started: the search button and
    the Enter key leave the screen as it is. *)
Theorem search_while_searching_is_ignored m w a b o key :
  isSearchLoading (st w) = true ->
  step Effects m w (SearchButtonClicked a b o) = w
  /\ step Effects m w (SearchTextKeyUp key) = w.
Proof. intros Hl. split; by apply search_again_ignored. Qed.

(** X11.  In the revision with the search effect [isSearchLoading] is
    only reset by the [then] of the request.  If the request is rejected the
    flag stays set, and from then on neither the search button nor the Enter
    key sends anything, however often they are used. *)
Theorem rejected_search_blocks_search m w k events :
  inflight w = [k] ->
  isSearch k = true ->
  isSearchLoading (st w) = true ->
  Forall (fun e => match e with
                   | SearchButtonClicked _ _ _ | SearchTextKeyUp _ => True
                   | _ => False
                   end) events ->
  let w1 := step Effects m w (Rejected 0) in
  inflight w1 = []
  /\ isSearchLoading (st w1) = true
  /\ run Effects m w1 events = w1
  /\ calls (run Effects m w1 events) = calls w.
Proof.
  intros Hk Hs Hl Hev. cbv zeta.
  assert (He : enabled Effects m w (Rejected 0) = true).
  { rewrite enabled_Rejected, Hk. reflexivity. }
  rewrite (step_enabled_Effects _ _ _ He). simpl.
  unfold TokensFx.rerender. rewrite sameDeps_same.
  set (w1 := settle 0 w).
  assert (Hin1 : inflight w1 = []) by (unfold w1; simpl; by rewrite Hk).
  assert (Hl1 : isSearchLoading (st w1) = true) by exact Hl.
  assert (Hrun : run Effects m w1 events = w1).
  { induction Hev as [|e events He' _ IH]; [reflexivity|].
    simpl. change (TokensFx.step m w1 e) with (step Effects m w1 e).
    rewrite (search_again_ignored m w1 e Hl1 He'). exact IH. }
  repeat split; try done. by rewrite Hrun.
Qed.

(** X12.  Requests are not ordered: with two searches in flight, the
    rows, [hasAfter] and the error flag on display once both have resolved are
    those of the response that arrived last, here the one of the older
    request. *)
Theorem last_response_wins rev m w k1 k2 r1 r2 :
  inflight w = [k1; k2] ->
  isSearch k1 = true ->
  isSearch k2 = true ->
  let w' := step rev m (step rev m w (Resolved 1 r2)) (Resolved 0 r1) in
  tokens (st w') = hits (getTokens_rows r1)
  /\ hasAfter (st w') = has_next (getTokens_rows r1)
  /\ error (st w') = get (resp_error r1) false
  /\ inflight w' = [].
Proof.
  intros Hin H1 H2. simpl.
  assert (Hmid : inflight (step rev m w (Resolved 1 r2)) = [k1]).
  { destruct k2 as [u2 i2| |]; try discriminate.
    destruct rev; simpl.
    - unfold Tokens.step, Tokens.enabled, offered, Tokens.handle. rewrite Hin. simpl.
      by destruct u2, i2; simpl; rewrite Hin.
    - unfold TokensFx.step, TokensFx.enabled, offered, TokensFx.handle. rewrite Hin. simpl.
      unfold TokensFx.rerender, TokensFx.searchEffect. simpl.
      by destruct (TokensFx.sameDeps _ _); simpl; rewrite Hin. }
  destruct (resolved_search rev m _ k1 [] r1 Hmid H1)
    as ([Hin' _ Herr Htok _ _ _] & _ & _ & Ha & _).
  rewrite Hmid in Hin'. by rewrite Htok, Ha, Herr, Hin'.
Qed.

(** ** The URL *)

(** X13.  In the revision with the search effect the URL changes only
    together with a page-1 request for the very query it names, and it changes
    when the request is sent, not when it is answered: a step either leaves
    the history alone or pushes the current [searchText], [sortBy], [order]
    and calls [getList] with them and the empty cursor. *)
Theorem effects_url_names_request m w e :
  let w' := step Effects m w e in
  history w' = history w
  \/ (history w' = history w ++ [ {| url_searchText := searchText (st w');
                                     url_sortBy := sortBy (st w');
                                     url_order := order (st w') |} ]
      /\ calls w' = calls w ++ [ {| gl_searchText := searchText (st w');
                                    gl_sortBy := sortBy (st w');
                                    gl_order := order (st w');
                                    gl_searchAfter := [] |} ]).
Proof.
  cbv zeta. step_cases Effects m w e;
    first [ by left
          | exfalso;
            match goal with
            | H : TokensFx.sameDeps _ _ = false |- _ =>
                unfold TokensFx.sameDeps in H; simpl in H;
                rewrite Bool.eqb_reflx, !String.eqb_refl in H; discriminate H
            end
          | right;
            repeat match goal with
              | H : String.eqb _ "" = true |- _ => apply String.eqb_eq in H; rewrite ?H
              end; by split ].
Qed.

(** X14.  In [Tokens.js] a header click sends its request with the sort
    field and order of the render it was made in, pushes no URL yet, and when
    the request resolves pushes a URL that names the clicked header and the
    new order: the URL and the rows on display are then for different
    sorts. *)
Theorem callbacks_header_click_url m w headerName tokensRequest :
  enabled Callbacks m w (TableHeaderClicked headerName) = true ->
  inflight w = [] ->
  headerName <> "" ->
  let c := st w in
  let w1 := step Callbacks m w (TableHeaderClicked headerName) in
  let w2 := step Callbacks m w1 (Resolved 0 tokensRequest) in
  calls w1 = calls w ++ [ {| gl_searchText := searchText c; gl_sortBy := sortBy c;
                             gl_order := order c; gl_searchAfter := [] |} ]
  /\ history w1 = history w
  /\ calls w2 = calls w1
  /\ history w2 = history w ++ [ {| url_searchText := searchText c;
                                    url_sortBy := headerName;
                                    url_order := order (st w2) |} ]
  /\ sortBy (st w2) = headerName.
Proof.
  intros He Hin Hne. cbv zeta. rewrite (step_enabled_Callbacks _ _ _ He). simpl.
  apply String.eqb_neq in Hne.
  unfold Tokens.tableHeaderClicked.
  destruct (String.eqb_spec headerName (sortBy (st w))) as [Heq|Hdiff]; simpl;
    unfold Tokens.step, Tokens.enabled, offered, Tokens.handle,
      Tokens.onSearchButtonClicked; simpl; rewrite Hin; simpl; rewrite Hne.
  - by destruct (String.eqb (order (st w)) "asc").
  - done.
Qed.

(** * Further properties of the dashboard reducer *)

Section DashboardWindow.
Import Dashboard.

Lemma rootReducer_window D state payload :
  (1 <= D)%Z ->
  let newData := setDate (Some (time payload * 1000)%float) payload in
  let kept := if (D <? Z.of_nat (length (data state)) + 1)%Z
              then shift (data state) else data state in
  rootReducer D state (dashboard_update payload)
  = Some {| data :=
              kept ++ [ setTxRate
                          match last kept with
                          | None => Some 0%float
                          | Some beforeLastData =>
                              let timeDiff := (time beforeLastData - time newData)%float in
                              let txDiff :=
                                (transactions beforeLastData - transactions newData)%float in
                              if (timeDiff =? 0)%float then txRate beforeLastData
                              else Some (Math_max 0 (txDiff / timeDiff))
                          end newData ] |}.
Proof.
  intros HD newData kept. unfold rootReducer. fold newData.
  assert (Hkept : (if (D <? Z.of_nat (length (data state ++ [newData])))%Z
                   then shift (data state ++ [newData]) else data state ++ [newData])
                  = kept ++ [newData]).
  { unfold kept. rewrite length_app. simpl length.
    replace (Z.of_nat (length (data state) + 1)) with (Z.of_nat (length (data state)) + 1)%Z
      by lia.
    destruct (D <? _)%Z eqn:Hlt; [|reflexivity].
    apply Z.ltb_lt in Hlt.
    destruct (data state) as [|a l]; [simpl in Hlt; lia | reflexivity]. }
  rewrite Hkept. clearbody kept.
  rewrite index_before_last.
  replace (pred (length (kept ++ [newData]))) with (length kept)
    by (rewrite length_app; simpl; lia).
  destruct kept as [|a l]; [reflexivity|].
  replace (Z.of_nat (length ((a :: l) ++ [newData])) =? 1)%Z with false
    by (symmetry; apply Z.eqb_neq; rewrite length_app; simpl; lia).
  destruct (last (a :: l)) as [beforeLastData|] eqn:Hlast.
  - simpl. destruct (_ =? 0)%float; by rewrite insert_last.
  - by apply last_None in Hlast.
Qed.

(** X15.  An update never rewrites what is already stored: the new list is
    the old one, without its oldest sample when the chart is full, followed by
    the new sample, whose [date] is its [time] times 1000 and whose counters
    are those of the payload. *)
Theorem update_appends_one_sample D state payload :
  (1 <= D)%Z ->
  exists state' newData,
    rootReducer D state (dashboard_update payload) = Some state'
    /\ data state'
       = (if (D <=? Z.of_nat (length (data state)))%Z
          then shift (data state) else data state) ++ [newData]
    /\ date newData = Some (time payload * 1000)%float
    /\ time newData = time payload
    /\ transactions newData = transactions payload
    /\ blocks newData = blocks payload
    /\ hash_rate newData = hash_rate payload
    /\ peers newData = peers payload.
Proof.
  intros HD. rewrite (rootReducer_window D state payload HD). cbv zeta.
  do 2 eexists. split; [reflexivity|]. simpl.
  replace (D <? Z.of_nat (length (data state)) + 1)%Z
    with (D <=? Z.of_nat (length (data state)))%Z; [by repeat split|].
  destruct (Z.leb_spec D (Z.of_nat (length (data state))));
    symmetry; [apply Z.ltb_lt | apply Z.ltb_ge]; lia.
Qed.

Lemma rootReducer_length D state action :
  (1 <= D)%Z ->
  (Z.of_nat (length (data state)) <= D)%Z ->
  exists state',
    rootReducer D state action = Some state'
    /\ Z.of_nat (length (data state'))
       = Z.min (Z.of_nat (length (data state))
                + (if DashboardStore.isUpdate action then 1 else 0)) D.
Proof.
  intros HD Hlen. destruct action as [payload|]; simpl DashboardStore.isUpdate.
  - rewrite (rootReducer_window D state payload HD). cbv zeta.
    eexists. split; [reflexivity|]. simpl. rewrite length_app. simpl length.
    destruct (Z.ltb_spec D (Z.of_nat (length (data state)) + 1)) as [Hfull|Hroom].
    + unfold shift. destruct (data state) as [|a l]; simpl in *; lia.
    + lia.
  - exists state. split; [reflexivity|]. lia.
Qed.

(** X16.  The chart is a sliding window: started with at most
    [DASHBOARD_CHART_TIME] samples (at least 1 allowed), the store survives any
    list of actions and holds as many samples as it had plus one per update,
    capped at [DASHBOARD_CHART_TIME]. *)
Theorem chart_window_is_bounded D state actions :
  (1 <= D)%Z ->
  (Z.of_nat (length (data state)) <= D)%Z ->
  exists state',
    DashboardStore.dispatchAll D state actions = Some state'
    /\ Z.of_nat (length (data state'))
       = Z.min (Z.of_nat (length (data state))
                + Z.of_nat (length (filter (fun a => DashboardStore.isUpdate a = true) actions)))
               D
    /\ (Z.of_nat (length (data state')) <= D)%Z.
Proof.
  intros HD. revert state. induction actions as [|action actions IH]; intros state Hlen.
  - exists state. simpl. split; [reflexivity|]. lia.
  - destruct (rootReducer_length D state action HD Hlen) as (state1 & Hr & Hl1).
    destruct (IH state1) as (state' & Hd & Hl' & Hb); [lia|].
    exists state'. simpl. rewrite Hr. split; [exact Hd|]. split; [|exact Hb].
    rewrite Hl', Hl1. rewrite filter_cons.
    destruct (DashboardStore.isUpdate action); simpl.
    + destruct (decide (true = true)) as [_|Hn]; [|done]. simpl length. lia.
    + destruct (decide (false = true)) as [Hn|_]; [done|]. lia.
Qed.

(** X17.  With a chart size below 1 the first update of an empty store
    throws: the sample is pushed and shifted out at once, and the reducer reads
    [time] from [undefined]. *)
Theorem first_update_throws_without_room D state payload :
  (D <= 0)%Z ->
  data state = [] ->
  rootReducer D state (dashboard_update payload) = None.
Proof.
  intros HD Hempty. unfold rootReducer. rewrite Hempty. simpl.
  replace (D <? Z.of_nat 1)%Z with true by (symmetry; apply Z.ltb_lt; lia).
  reflexivity.
Qed.

Lemma ltb_not_nan x y :
  (x <? y)%float = true -> is_nan x = false /\ is_nan y = false.
Proof.
  unfold is_nan. rewrite ltb_spec, !FloatAxioms.eqb_spec. unfold SFltb, SFeqb.
  destruct (Prim2SF x) as [sx|sx| |sx mx ex], (Prim2SF y) as [sy|sy| |sy my ey];
    simpl; try discriminate; intros _;
    repeat match goal with
      | |- context [Z.compare ?e ?e] => rewrite Z.compare_refl
      | |- context [Pos.compare_cont Eq ?p ?p] => rewrite Pos.compare_cont_refl
      | s : bool |- _ => destruct s
      end; by simpl.
Qed.

Lemma ltb_zero_asym' q : (q <? 0)%float = true -> (0 <? q)%float = false.
Proof.
  rewrite !ltb_spec. change (Prim2SF 0) with (S754_zero false).
  unfold SFltb. destruct (Prim2SF q) as [s|s| |s mq e]; simpl; try done; by destruct s.
Qed.

Lemma Math_max_clamps q :
  ((q <? 0)%float = true -> Math_max 0 q = 0%float)
  /\ ((0 <? q)%float = true -> Math_max 0 q = q).
Proof.
  rewrite Math_max_zero. split; intros H.
  - destruct (ltb_not_nan _ _ H) as [-> _]. by rewrite (ltb_zero_asym' _ H).
  - destruct (ltb_not_nan _ _ H) as [_ ->]. by rewrite H.
Qed.

(** X18.  The rate is taken against the newest sample already stored, and
    it is clamped: with a chart of at least two samples and a time that has
    moved, a quotient below zero (the counter went down) gives rate 0, and a
    quotient above zero is the rate itself. *)
Theorem txRate_is_clamped_quotient D state payload beforeLastData :
  (2 <= D)%Z ->
  last (data state) = Some beforeLastData ->
  let timeDiff := (time beforeLastData - time payload)%float in
  let txDiff := (transactions beforeLastData - transactions payload)%float in
  (timeDiff =? 0)%float = false ->
  exists state' newData,
    rootReducer D state (dashboard_update payload) = Some state'
    /\ last (data state') = Some newData
    /\ txRate newData = Some (Math_max 0 (txDiff / timeDiff))
    /\ ((txDiff / timeDiff <? 0)%float = true -> txRate newData = Some 0%float)
    /\ ((0 <? txDiff / timeDiff)%float = true -> txRate newData = Some (txDiff / timeDiff)%float).
Proof.
  intros HD Hlast timeDiff txDiff Hzero.
  rewrite (rootReducer_window D state payload) by lia. cbv zeta.
  assert (Hkept : last (if (D <? Z.of_nat (length (data state)) + 1)%Z
                        then shift (data state) else data state) = Some beforeLastData).
  { destruct (Z.ltb_spec D (Z.of_nat (length (data state)) + 1)) as [Hfull|_]; [|exact Hlast].
    destruct (data state) as [|a [|b l]]; simpl in *; try lia. exact Hlast. }
  rewrite Hkept. simpl. fold timeDiff txDiff. rewrite Hzero.
  do 2 eexists. split; [reflexivity|]. simpl. split; [apply last_snoc|]. simpl.
  destruct (Math_max_clamps (txDiff / timeDiff)) as [Hneg Hpos].
  split; [reflexivity|]. split; intros H; f_equal; auto.
Qed.

End DashboardWindow.

(** * Properties of the Wallet screen *)

Section WalletProperties.
Import Wallet.

Lemma run_keeps (P : Component -> Prop) :
  (forall w e, P w -> P (step w e)) ->
  forall events w, P w -> P (run w events).
Proof.
  intros Hstep events. induction events as [|e events IH]; intros w Hw; [exact Hw|].
  simpl. apply IH, Hstep, Hw.
Qed.

Ltac websocket_cases wsData :=
  unfold handleWebsocket, updateBalance, newOutput, outputSpent, backupKeysWarning,
    gapLimitWarning, showWarning;
  repeat match goal with
    | |- context [if ?b then _ else _] => destruct b eqn:?
    end; simpl.

Lemma handleWebsocket_state wsData w :
  let w' := handleWebsocket wsData w in
  locked (state w') = locked (state w)
  /\ lockDisabled (state w') = lockDisabled (state w)
  /\ walletType (state w') = walletType (state w)
  /\ historyLoaded (state w') = historyLoaded (state w)
  /\ balanceLoaded (state w') = balanceLoaded (state w)
  /\ addressLoaded (state w') = addressLoaded (state w)
  /\ lockRequests w' = lockRequests w.
Proof. cbv zeta. repeat split; websocket_cases wsData; reflexivity. Qed.

(** X19.  A websocket message never locks or unlocks the wallet, never
    touches the lock button or the loading flags, and never starts a request.
    While the wallet is not shown (locked, or lock state still unknown) a
    balance or output message is dropped: no child is called and nothing is
    kept for later. *)
Theorem websocket_leaves_lock_alone wsData w :
  let w' := handleWebsocket wsData w in
  locked (state w') = locked (state w)
  /\ lockDisabled (state w') = lockDisabled (state w)
  /\ walletType (state w') = walletType (state w)
  /\ historyLoaded (state w') = historyLoaded (state w)
  /\ balanceLoaded (state w') = balanceLoaded (state w)
  /\ addressLoaded (state w') = addressLoaded (state w)
  /\ lockRequests w' = lockRequests w
  /\ (childrenMounted (state w) = false ->
      ws_type wsData = "wallet:balance_updated"
      \/ ws_type wsData = "wallet:output_received"
      \/ ws_type wsData = "wallet:output_spent" ->
      w' = w).
Proof.
  cbv zeta.
  destruct (handleWebsocket_state wsData w) as (H1 & H2 & H3 & H4 & H5 & H6 & H7).
  repeat (split; [assumption|]).
  intros Hm Htype. unfold handleWebsocket, updateBalance, newOutput, outputSpent.
  rewrite Hm. destruct Htype as [ -> | [ -> | -> ] ]; reflexivity.
Qed.

(** X20.  The two warnings: a ["wallet:keys_generated"] message sets the
    warning to the count followed by the backup text, a ["wallet:gap_limit"]
    message sets it to the gap-limit text, and each shows the alert for 5000
    ms; a message of any other type leaves the warning as it is. *)
Theorem websocket_warnings wsData w :
  let w' := handleWebsocket wsData w in
  (ws_type wsData = "wallet:keys_generated" ->
     warning (state w')
     = Some (toString (ws_keys_count wsData)
               +:+ " new keys were generated! Backup your wallet")
     /\ calls w' = calls w ++ [ShowAlert "alert-warning" 5000])
  /\ (ws_type wsData = "wallet:gap_limit" ->
        warning (state w')
        = Some "You have achieved the limit of unused addresses in sequence. Use this one to generate more."
        /\ calls w' = calls w ++ [ShowAlert "alert-warning" 5000])
  /\ (ws_type wsData <> "wallet:keys_generated" ->
      ws_type wsData <> "wallet:gap_limit" ->
      warning (state w') = warning (state w)).
Proof.
  cbv zeta. split; [|split].
  - intros Ht. unfold handleWebsocket. rewrite Ht. by simpl.
  - intros Ht. unfold handleWebsocket. rewrite Ht. by simpl.
  - intros Hk Hg. apply String.eqb_neq in Hk, Hg.
    unfold handleWebsocket. rewrite Hk, Hg.
    unfold updateBalance, newOutput, outputSpent.
    repeat match goal with
      | |- context [if ?b then _ else _] => destruct b
      end; reflexivity.
Qed.

Lemma stuck_step w e :
  lockDisabled (state w) = true /\ lockRequests w = 0 ->
  lockDisabled (state (step w e)) = true /\ lockRequests (step w e) = 0.
Proof.
  intros [Hd Hr]. unfold step, enabled.
  destruct e; simpl; rewrite ?Hd, ?Hr, ?andb_false_r; simpl; try done;
    repeat match goal with
      | |- context [if ?b then _ else _] => destruct b eqn:?
      end; simpl; try done.
  all: destruct (handleWebsocket_state wsData w) as (_ & H2 & _ & _ & _ & _ & H7);
    by rewrite H2, H7.
Qed.

(** X21.  The lock button is only re-enabled by the [then] of
    [walletApi.lock()].  If that request is rejected the button stays
    disabled whatever happens next, locking and unlocking through the helper
    included, so no second lock request can be made from this screen. *)
Theorem rejected_lock_request_disables_button w events :
  enabled w LockWalletClicked = true ->
  lockRequests w = 0 ->
  let w2 := step (step w LockWalletClicked) LockRejected in
  let w' := run w2 events in
  calls w2 = calls w ++ [WalletApiLock; ConsoleLog]
  /\ lockDisabled (state w') = true
  /\ enabled w' LockWalletClicked = false
  /\ (forall view, render (state w') = UnlockedWallet view -> lockButtonDisabled view = true).
Proof.
  intros He Hr. cbv zeta.
  assert (H2 : calls (step (step w LockWalletClicked) LockRejected)
               = calls w ++ [WalletApiLock; ConsoleLog]
               /\ lockDisabled (state (step (step w LockWalletClicked) LockRejected)) = true
               /\ lockRequests (step (step w LockWalletClicked) LockRejected) = 0).
  { assert (Hs : step w LockWalletClicked = willLockWallet w)
      by (unfold step; by rewrite He).
    rewrite Hs. unfold step, enabled. simpl. rewrite <- app_assoc. by repeat split. }
  destruct H2 as (Hc & Hd & Hq). split; [exact Hc|].
  assert (Hinv : lockDisabled (state (run (step (step w LockWalletClicked) LockRejected) events))
                 = true
                 /\ lockRequests (run (step (step w LockWalletClicked) LockRejected) events)
                    = 0).
  { apply (run_keeps (fun w => lockDisabled (state w) = true /\ lockRequests w = 0)).
    - intros w0 e. apply stuck_step.
    - by split. }
  destruct Hinv as [Hd' _]. split; [exact Hd'|]. split.
  - unfold enabled. by rewrite Hd', andb_false_r.
  - intros view Hv. unfold render in Hv.
    destruct (locked _) as [[]|]; try discriminate. injection Hv as <-. exact Hd'.
Qed.

(** X22.  Locking: a click on the lock button disables it and calls
    [walletApi.lock()].  If the answer says [success] the unlock form takes
    the place of the wallet and, once the user has unlocked again, the wallet
    is back with the button enabled and the loading flags it had.  If it does
    not, the wallet stays on display with the button enabled again. *)
Theorem lock_wallet_round_trip w :
  enabled w LockWalletClicked = true ->
  let w1 := step w LockWalletClicked in
  let locked' := step w1 (LockResolved true) in
  let reopened := step locked' Unlocked in
  let refused := step w1 (LockResolved false) in
  (lockDisabled (state w1) = true /\ calls w1 = calls w ++ [WalletApiLock])
  /\ render (state locked') = WalletUnlock (walletType (state w))
  /\ render (state reopened) = render (state w)
  /\ render (state refused) = render (state w)
  /\ calls refused = calls w1.
Proof.
  intros He. cbv zeta.
  assert (Hs : step w LockWalletClicked = willLockWallet w)
    by (unfold step; by rewrite He).
  rewrite Hs. unfold enabled in He. apply andb_true_iff in He as [Hm Hd].
  apply negb_true_iff in Hd.
  unfold childrenMounted, render in Hm.
  destruct (locked (state w)) as [[]|] eqn:Hl; try discriminate.
  unfold step, enabled, render. simpl. rewrite Hl, Hd. by repeat split.
Qed.

Lemma loaded_step w e :
  historyLoaded (state w) = true /\ balanceLoaded (state w) = true
  /\ addressLoaded (state w) = true ->
  historyLoaded (state (step w e)) = true /\ balanceLoaded (state (step w e)) = true
  /\ addressLoaded (state (step w e)) = true.
Proof.
  intros (Hh & Hb & Ha). unfold step.
  destruct (enabled w e); [|done].
  destruct e; simpl; try done;
    try (repeat match goal with
           | |- context [if ?b then _ else _] => destruct b
           end; done).
  - destruct (handleWebsocket_state wsData w) as (_ & _ & _ & H4 & H5 & H6 & _).
    by rewrite H4, H5, H6.
  - by destruct success.
Qed.

(** X23.  The three loading flags are only ever set: once history,
    balance and address have all reported, the spinner is never rendered
    again, not even after the wallet was locked and unlocked and its children
    mounted anew. *)
Theorem spinner_never_returns w events :
  historyLoaded (state w) = true ->
  balanceLoaded (state w) = true ->
  addressLoaded (state w) = true ->
  forall view, render (state (run w events)) = UnlockedWallet view ->
               loadingSpinner view = false.
Proof.
  intros Hh Hb Ha.
  assert (Hinv : historyLoaded (state (run w events)) = true
                 /\ balanceLoaded (state (run w events)) = true
                 /\ addressLoaded (state (run w events)) = true).
  { apply (run_keeps (fun w => historyLoaded (state w) = true
                               /\ balanceLoaded (state w) = true
                               /\ addressLoaded (state w) = true)).
    - intros w0 e. apply loaded_step.
    - by repeat split. }
  destruct Hinv as (Hh' & Hb' & Ha'). intros view Hv. unfold render in Hv.
  destruct (locked _) as [[]|]; try discriminate. injection Hv as <-. simpl.
  by rewrite Hh', Hb', Ha'.
Qed.

End WalletProperties.

(** * The further properties at work on the sample traffic *)

Lemma failed_next_still_turns_page_witness :
  enabled Effects false (Sample.loaded Effects) NextPageClicked = true
  /\ inflight (Sample.loaded Effects) = []
  /\ resp_data Sample.failed = None
  /\ let w2 := click Effects false NextPageClicked Sample.failed (Sample.loaded Effects) in
     page (st w2) = (page (st (Sample.loaded Effects)) + 1)%Z
     /\ tokens (st w2) = []
     /\ hasAfter (st w2) = false
     /\ hasBefore (st w2) = true
     /\ error (st w2) = get (resp_error Sample.failed) false
     /\ inflight w2 = [].
Proof.
  assert (H1 : enabled Effects false (Sample.loaded Effects) NextPageClicked = true)
    by reflexivity.
  assert (H2 : inflight (Sample.loaded Effects) = []) by reflexivity.
  assert (H3 : resp_data Sample.failed = None) by reflexivity.
  repeat match goal with |- _ /\ _ => split; [assumption|] end.
  exact (failed_next_still_turns_page Effects false _ Sample.failed H1 H2 H3).
Defined.

Lemma next_previous_next_witness :
  error (st (Sample.loaded Callbacks)) = false
  /\ inflight (Sample.loaded Callbacks) = []
  /\ get (resp_error Sample.secondPage) false = false
  /\ get (resp_error Sample.firstPage) false = false
  /\ let w := Sample.loaded Callbacks in
     let cursor := [SortNumber 20; SortString "00b2"] in
     let w1 := click Callbacks false NextPageClicked Sample.secondPage w in
     let w2 := click Callbacks false PreviousPageClicked Sample.firstPage w1 in
     let w3 := step Callbacks false w2 NextPageClicked in
     gl_searchAfter <$> last (calls (step Callbacks false w NextPageClicked)) = Some cursor
     /\ page (st w2) = page (st w)
     /\ gl_searchAfter <$> last (calls w3) = Some cursor
     /\ pageSearchAfter (st w3) = pageSearchAfter (st w1).
Proof.
  assert (H1 : error (st (Sample.loaded Callbacks)) = false) by reflexivity.
  assert (H2 : inflight (Sample.loaded Callbacks) = []) by reflexivity.
  assert (H3 : get (resp_error Sample.secondPage) false = false) by reflexivity.
  assert (H4 : get (resp_error Sample.firstPage) false = false) by reflexivity.
  repeat match goal with |- _ /\ _ => split; [assumption|] end.
  refine (next_previous_next Callbacks (Sample.loaded Callbacks) Sample.secondPage
            Sample.firstPage H1 H2 H3 H4 _ _).
  - vm_compute. discriminate.
  - intros e He. vm_compute in He. discriminate He.
Defined.

Lemma previous_to_first_page_witness :
  browsing Callbacks false (Sample.onSecond Callbacks)
  /\ page (st (Sample.onSecond Callbacks)) = 2%Z
  /\ enabled Callbacks false (Sample.onSecond Callbacks) PreviousPageClicked = true
  /\ let w1 := step Callbacks false (Sample.onSecond Callbacks) PreviousPageClicked in
     let w2 := step Callbacks false w1 (Resolved 0 Sample.firstPage) in
     gl_searchAfter <$> last (calls w1) = Some []
     /\ page (st w2) = 1%Z
     /\ hasBefore (st w2) = false
     /\ hasAfter (st w2) = true.
Proof.
  assert (H1 : browsing Callbacks false (Sample.onSecond Callbacks)).
  { apply (browsing_next Callbacks false (Sample.loaded Callbacks) Sample.secondPage).
    - eapply (browsing_search Callbacks false (mounted Callbacks false Sample.noParams)
                _ Sample.firstPage); reflexivity.
    - reflexivity. }
  assert (H2 : page (st (Sample.onSecond Callbacks)) = 2%Z) by reflexivity.
  assert (H3 : enabled Callbacks false (Sample.onSecond Callbacks) PreviousPageClicked = true)
    by reflexivity.
  repeat match goal with |- _ /\ _ => split; [assumption|] end.
  exact (previous_to_first_page Callbacks false _ Sample.firstPage H1 H2 H3).
Defined.

Lemma previous_below_first_page_witness :
  page (st (Sample.loaded Effects)) = 1%Z
  /\ enabled Effects false (Sample.loaded Effects) PreviousPageClicked = true
  /\ inflight (Sample.loaded Effects) = []
  /\ let w2 := click Effects false PreviousPageClicked Sample.firstPage
                 (Sample.loaded Effects) in
     page (st w2) = 0%Z
     /\ hasBefore (st w2) = true
     /\ hasAfter (st w2) = true
     /\ pageSearchAfter (st w2) = pageSearchAfter (st (Sample.loaded Effects)).
Proof.
  assert (H1 : page (st (Sample.loaded Effects)) = 1%Z) by reflexivity.
  assert (H2 : enabled Effects false (Sample.loaded Effects) PreviousPageClicked = true)
    by reflexivity.
  assert (H3 : inflight (Sample.loaded Effects) = []) by reflexivity.
  repeat match goal with |- _ /\ _ => split; [assumption|] end.
  exact (previous_below_first_page Effects false _ Sample.firstPage H1 H2 H3).
Defined.

Lemma typing_sends_nothing_witness :
  (Effects = Callbacks \/ isSearchLoading (st (Sample.loaded Effects)) = false)
  /\ enabled Effects false (Sample.loaded Effects) (SearchTextChanged "htr") = true
  /\ step Effects false (Sample.loaded Effects) (SearchTextChanged "htr")
     = update (setSearchText "htr") (Sample.loaded Effects).
Proof.
  assert (H1 : Effects = Callbacks \/ isSearchLoading (st (Sample.loaded Effects)) = false)
    by (right; reflexivity).
  assert (H2 : enabled Effects false (Sample.loaded Effects) (SearchTextChanged "htr") = true)
    by reflexivity.
  repeat match goal with |- _ /\ _ => split; [assumption|] end.
  exact (typing_sends_nothing Effects false _ "htr" H1 H2).
Defined.

Lemma typing_while_searching_refetches_witness :
  isSearchLoading (st Visit.searching) = true
  /\ "htr" <> searchText (st Visit.searching)
  /\ enabled Effects false Visit.searching (SearchTextChanged "htr") = true
  /\ let w1 := step Effects false Visit.searching (SearchTextChanged "htr") in
     calls w1 = calls Visit.searching
                  ++ [ {| gl_searchText := "htr"; gl_sortBy := sortBy (st Visit.searching);
                          gl_order := order (st Visit.searching); gl_searchAfter := [] |} ]
     /\ inflight w1 = inflight Visit.searching ++ [AwaitSearch None false]
     /\ length (history w1) = S (length (history Visit.searching)).
Proof.
  assert (H1 : isSearchLoading (st Visit.searching) = true) by reflexivity.
  assert (H2 : "htr" <> searchText (st Visit.searching)) by (vm_compute; discriminate).
  assert (H3 : enabled Effects false Visit.searching (SearchTextChanged "htr") = true)
    by reflexivity.
  repeat match goal with |- _ /\ _ => split; [assumption|] end.
  exact (typing_while_searching_refetches false Visit.searching "htr" H1 H2 H3).
Defined.

Lemma search_while_searching_is_ignored_witness :
  isSearchLoading (st Visit.searching) = true
  /\ step Effects false Visit.searching (SearchButtonClicked None None None) = Visit.searching
  /\ step Effects false Visit.searching (SearchTextKeyUp "Enter") = Visit.searching.
Proof.
  assert (H1 : isSearchLoading (st Visit.searching) = true) by reflexivity.
  split; [exact H1|].
  exact (search_while_searching_is_ignored false Visit.searching None None None "Enter" H1).
Defined.

Lemma rejected_search_blocks_search_witness :
  inflight Visit.searching = [AwaitSearch None false]
  /\ isSearchLoading (st Visit.searching) = true
  /\ let events := [SearchButtonClicked None None None; SearchTextKeyUp "Enter";
                    SearchButtonClicked None None None] in
     let w1 := step Effects false Visit.searching (Rejected 0) in
     inflight w1 = []
     /\ isSearchLoading (st w1) = true
     /\ run Effects false w1 events = w1
     /\ calls (run Effects false w1 events) = calls Visit.searching.
Proof.
  assert (H1 : inflight Visit.searching = [AwaitSearch None false]) by reflexivity.
  assert (H2 : isSearch (AwaitSearch None false) = true) by reflexivity.
  assert (H3 : isSearchLoading (st Visit.searching) = true) by reflexivity.
  split; [exact H1|]. split; [exact H3|].
  refine (rejected_search_blocks_search false Visit.searching _ _ H1 H2 H3 _).
  repeat constructor.
Defined.

Lemma last_response_wins_witness :
  inflight Visit.twoSearches
  = [AwaitSearch (Some {| url_searchText := ""; url_sortBy := "transaction_timestamp";
                          url_order := "desc" |}) true;
     AwaitSearch (Some {| url_searchText := ""; url_sortBy := "transaction_timestamp";
                          url_order := "desc" |}) false]
  /\ let w' := step Callbacks false
                 (step Callbacks false Visit.twoSearches (Resolved 1 Sample.secondPage))
                 (Resolved 0 Sample.firstPage) in
     tokens (st w') = hits (getTokens_rows Sample.firstPage)
     /\ hasAfter (st w') = has_next (getTokens_rows Sample.firstPage)
     /\ error (st w') = get (resp_error Sample.firstPage) false
     /\ inflight w' = [].
Proof.
  assert (H1 : inflight Visit.twoSearches
               = [AwaitSearch (Some {| url_searchText := "";
                                       url_sortBy := "transaction_timestamp";
                                       url_order := "desc" |}) true;
                  AwaitSearch (Some {| url_searchText := "";
                                       url_sortBy := "transaction_timestamp";
                                       url_order := "desc" |}) false]) by reflexivity.
  split; [exact H1|].
  exact (last_response_wins Callbacks false Visit.twoSearches _ _ Sample.firstPage
           Sample.secondPage H1 eq_refl eq_refl).
Defined.

Lemma callbacks_header_click_url_witness :
  enabled Callbacks false (Sample.loaded Callbacks) (TableHeaderClicked "name") = true
  /\ inflight (Sample.loaded Callbacks) = []
  /\ "name" <> ""
  /\ let c := st (Sample.loaded Callbacks) in
     let w1 := step Callbacks false (Sample.loaded Callbacks) (TableHeaderClicked "name") in
     let w2 := step Callbacks false w1 (Resolved 0 Sample.firstPage) in
     calls w1 = calls (Sample.loaded Callbacks)
                  ++ [ {| gl_searchText := searchText c; gl_sortBy := sortBy c;
                          gl_order := order c; gl_searchAfter := [] |} ]
     /\ history w1 = history (Sample.loaded Callbacks)
     /\ calls w2 = calls w1
     /\ history w2 = history (Sample.loaded Callbacks)
                       ++ [ {| url_searchText := searchText c; url_sortBy := "name";
                               url_order := order (st w2) |} ]
     /\ sortBy (st w2) = "name".
Proof.
  assert (H1 : enabled Callbacks false (Sample.loaded Callbacks) (TableHeaderClicked "name")
               = true) by reflexivity.
  assert (H2 : inflight (Sample.loaded Callbacks) = []) by reflexivity.
  assert (H3 : "name" <> "") by discriminate.
  repeat match goal with |- _ /\ _ => split; [assumption|] end.
  exact (callbacks_header_click_url false _ "name" Sample.firstPage H1 H2 H3).
Defined.

Lemma update_appends_one_sample_witness :
  (1 <= 1)%Z
  /\ exists state' newData,
       Dashboard.rootReducer 1 Ticks.afterFirst (Dashboard.dashboard_update Ticks.second)
       = Some state'
       /\ Dashboard.data state'
          = (if (1 <=? Z.of_nat (length (Dashboard.data Ticks.afterFirst)))%Z
             then Dashboard.shift (Dashboard.data Ticks.afterFirst)
             else Dashboard.data Ticks.afterFirst) ++ [newData]
       /\ Dashboard.date newData = Some (Dashboard.time Ticks.second * 1000)%float
       /\ Dashboard.time newData = Dashboard.time Ticks.second
       /\ Dashboard.transactions newData = Dashboard.transactions Ticks.second
       /\ Dashboard.blocks newData = Dashboard.blocks Ticks.second
       /\ Dashboard.hash_rate newData = Dashboard.hash_rate Ticks.second
       /\ Dashboard.peers newData = Dashboard.peers Ticks.second.
Proof.
  assert (H : (1 <= 1)%Z) by lia.
  split; [exact H|].
  exact (update_appends_one_sample 1 Ticks.afterFirst Ticks.second H).
Defined.

Lemma chart_window_is_bounded_witness :
  (1 <= 2)%Z
  /\ (Z.of_nat (length (Dashboard.data Ticks.afterFirst)) <= 2)%Z
  /\ let actions := [Dashboard.dashboard_update Ticks.second; Dashboard.other_action;
                     Dashboard.dashboard_update Ticks.first;
                     Dashboard.dashboard_update Ticks.second] in
     exists state',
       DashboardStore.dispatchAll 2 Ticks.afterFirst actions = Some state'
       /\ Z.of_nat (length (Dashboard.data state'))
          = Z.min (Z.of_nat (length (Dashboard.data Ticks.afterFirst))
                   + Z.of_nat (length (filter (fun a => DashboardStore.isUpdate a = true)
                                         actions)))
                  2
       /\ (Z.of_nat (length (Dashboard.data state')) <= 2)%Z.
Proof.
  assert (H1 : (1 <= 2)%Z) by lia.
  assert (H2 : (Z.of_nat (length (Dashboard.data Ticks.afterFirst)) <= 2)%Z)
    by (vm_compute; discriminate).
  split; [exact H1|]. split; [exact H2|].
  exact (chart_window_is_bounded 2 Ticks.afterFirst _ H1 H2).
Defined.

Lemma first_update_throws_without_room_witness :
  (0 <= 0)%Z
  /\ Dashboard.data Dashboard.initialState = []
  /\ Dashboard.rootReducer 0 Dashboard.initialState (Dashboard.dashboard_update Ticks.first)
     = None.
Proof.
  assert (H1 : (0 <= 0)%Z) by lia.
  assert (H2 : Dashboard.data Dashboard.initialState = []) by reflexivity.
  split; [exact H1|]. split; [exact H2|].
  exact (first_update_throws_without_room 0 Dashboard.initialState Ticks.first H1 H2).
Defined.

Lemma txRate_is_clamped_quotient_witness :
  (2 <= 200)%Z
  /\ last (Dashboard.data Ticks.afterFirst)
     = Some (Dashboard.setTxRate (Some 0%float) (Dashboard.setDate (Some 0%float) Ticks.first))
  /\ let beforeLastData :=
       Dashboard.setTxRate (Some 0%float) (Dashboard.setDate (Some 0%float) Ticks.first) in
     let timeDiff := (Dashboard.time beforeLastData - Dashboard.time Ticks.second)%float in
     let txDiff :=
       (Dashboard.transactions beforeLastData - Dashboard.transactions Ticks.second)%float in
     (timeDiff =? 0)%float = false
     /\ exists state' newData,
          Dashboard.rootReducer 200 Ticks.afterFirst (Dashboard.dashboard_update Ticks.second)
          = Some state'
          /\ last (Dashboard.data state') = Some newData
          /\ Dashboard.txRate newData = Some (Dashboard.Math_max 0 (txDiff / timeDiff))
          /\ ((txDiff / timeDiff <? 0)%float = true ->
              Dashboard.txRate newData = Some 0%float)
          /\ ((0 <? txDiff / timeDiff)%float = true ->
              Dashboard.txRate newData = Some (txDiff / timeDiff)%float).
Proof.
  assert (H1 : (2 <= 200)%Z) by lia.
  assert (H2 : last (Dashboard.data Ticks.afterFirst)
               = Some (Dashboard.setTxRate (Some 0%float)
                         (Dashboard.setDate (Some 0%float) Ticks.first))) by reflexivity.
  assert (H3 : (Dashboard.time (Dashboard.setTxRate (Some 0%float)
                                  (Dashboard.setDate (Some 0%float) Ticks.first))
                - Dashboard.time Ticks.second =? 0)%float = false) by reflexivity.
  split; [exact H1|]. split; [exact H2|]. cbv zeta. split; [exact H3|].
  exact (txRate_is_clamped_quotient 200 Ticks.afterFirst Ticks.second _ H1 H2 H3).
Defined.

Lemma websocket_leaves_lock_alone_witness :
  Wallet.childrenMounted (Wallet.state Visit.unknownWallet) = false
  /\ Wallet.ws_type (Wallet.message "wallet:balance_updated") = "wallet:balance_updated"
  /\ Wallet.handleWebsocket (Wallet.message "wallet:balance_updated") Visit.unknownWallet
     = Visit.unknownWallet.
Proof.
  assert (H1 : Wallet.childrenMounted (Wallet.state Visit.unknownWallet) = false)
    by reflexivity.
  assert (H2 : Wallet.ws_type (Wallet.message "wallet:balance_updated")
               = "wallet:balance_updated") by reflexivity.
  split; [exact H1|]. split; [exact H2|].
  exact (proj2 (proj2 (proj2 (proj2 (proj2 (proj2 (proj2
           (websocket_leaves_lock_alone (Wallet.message "wallet:balance_updated")
              Visit.unknownWallet)))))))
           H1 (or_introl H2)).
Defined.

Lemma websocket_warnings_witness :
  Wallet.ws_type (Wallet.message "wallet:keys_generated") = "wallet:keys_generated"
  /\ Wallet.warning
       (Wallet.state
          (Wallet.handleWebsocket (Wallet.message "wallet:keys_generated") Visit.openWallet))
     = Some "20 new keys were generated! Backup your wallet"
  /\ Wallet.calls
       (Wallet.handleWebsocket (Wallet.message "wallet:keys_generated") Visit.openWallet)
     = Wallet.calls Visit.openWallet ++ [Wallet.ShowAlert "alert-warning" 5000].
Proof.
  assert (H1 : Wallet.ws_type (Wallet.message "wallet:keys_generated")
               = "wallet:keys_generated") by reflexivity.
  split; [exact H1|].
  exact (proj1 (websocket_warnings (Wallet.message "wallet:keys_generated") Visit.openWallet)
           H1).
Defined.

Lemma rejected_lock_request_disables_button_witness :
  Wallet.enabled Visit.openWallet Wallet.LockWalletClicked = true
  /\ Wallet.lockRequests Visit.openWallet = 0
  /\ let events := [Wallet.LockChecked true; Wallet.Unlocked; Wallet.LockWalletClicked;
                    Wallet.Websocket (Wallet.message "wallet:gap_limit")] in
     let w2 := Wallet.step (Wallet.step Visit.openWallet Wallet.LockWalletClicked)
                 Wallet.LockRejected in
     let w' := Wallet.run w2 events in
     Wallet.calls w2 = Wallet.calls Visit.openWallet ++ [Wallet.WalletApiLock; Wallet.ConsoleLog]
     /\ Wallet.lockDisabled (Wallet.state w') = true
     /\ Wallet.enabled w' Wallet.LockWalletClicked = false
     /\ (forall view, Wallet.render (Wallet.state w') = Wallet.UnlockedWallet view ->
                      Wallet.lockButtonDisabled view = true).
Proof.
  assert (H1 : Wallet.enabled Visit.openWallet Wallet.LockWalletClicked = true) by reflexivity.
  assert (H2 : Wallet.lockRequests Visit.openWallet = 0) by reflexivity.
  split; [exact H1|]. split; [exact H2|].
  exact (rejected_lock_request_disables_button Visit.openWallet _ H1 H2).
Defined.

Lemma lock_wallet_round_trip_witness :
  Wallet.enabled Visit.openWallet Wallet.LockWalletClicked = true
  /\ let w1 := Wallet.step Visit.openWallet Wallet.LockWalletClicked in
     let locked' := Wallet.step w1 (Wallet.LockResolved true) in
     let reopened := Wallet.step locked' Wallet.Unlocked in
     let refused := Wallet.step w1 (Wallet.LockResolved false) in
     (Wallet.lockDisabled (Wallet.state w1) = true
      /\ Wallet.calls w1 = Wallet.calls Visit.openWallet ++ [Wallet.WalletApiLock])
     /\ Wallet.render (Wallet.state locked')
        = Wallet.WalletUnlock (Wallet.walletType (Wallet.state Visit.openWallet))
     /\ Wallet.render (Wallet.state reopened) = Wallet.render (Wallet.state Visit.openWallet)
     /\ Wallet.render (Wallet.state refused) = Wallet.render (Wallet.state Visit.openWallet)
     /\ Wallet.calls refused = Wallet.calls w1.
Proof.
  assert (H1 : Wallet.enabled Visit.openWallet Wallet.LockWalletClicked = true) by reflexivity.
  split; [exact H1|].
  exact (lock_wallet_round_trip Visit.openWallet H1).
Defined.

Lemma spinner_never_returns_witness :
  Wallet.historyLoaded (Wallet.state Visit.openWallet) = true
  /\ Wallet.balanceLoaded (Wallet.state Visit.openWallet) = true
  /\ Wallet.addressLoaded (Wallet.state Visit.openWallet) = true
  /\ let events := [Wallet.LockWalletClicked; Wallet.LockResolved true; Wallet.Unlocked] in
     forall view,
       Wallet.render (Wallet.state (Wallet.run Visit.openWallet events))
       = Wallet.UnlockedWallet view ->
       Wallet.loadingSpinner view = false.
Proof.
  assert (H1 : Wallet.historyLoaded (Wallet.state Visit.openWallet) = true) by reflexivity.
  assert (H2 : Wallet.balanceLoaded (Wallet.state Visit.openWallet) = true) by reflexivity.
  assert (H3 : Wallet.addressLoaded (Wallet.state Visit.openWallet) = true) by reflexivity.
  repeat match goal with |- _ /\ _ => split; [assumption|] end.
  exact (spinner_never_returns Visit.openWallet _ H1 H2 H3).
Defined.

Lemma displayed_rows_have_uid_witness :
  inflight (mounted Callbacks false Sample.noParams) !! 0
  = Some (AwaitSearch (Some {| url_searchText := ""; url_sortBy := "transaction_timestamp";
                               url_order := "desc" |}) true)
  /\ tk_nft <$> Sample.twentyRows !! 0 = Some None
  /\ Forall2 (fun sent shown =>
                tk_id shown = tk_id sent
                /\ tk_uid shown = Some (tk_id sent)
                /\ tk_nft shown = Some (get (tk_nft sent) false)
                /\ tk_sort shown = tk_sort sent)
             (hits (get (resp_data (Sample.found Sample.twentyRows true))
                      {| hits := []; has_next := false |}))
             (tokens (st (step Callbacks false (mounted Callbacks false Sample.noParams)
                            (Resolved 0 (Sample.found Sample.twentyRows true))))).
Proof.
  assert (H1 : inflight (mounted Callbacks false Sample.noParams) !! 0
               = Some (AwaitSearch (Some {| url_searchText := "";
                                            url_sortBy := "transaction_timestamp";
                                            url_order := "desc" |}) true)) by reflexivity.
  split; [exact H1|]. split; [reflexivity|].
  exact (proj2 (displayed_rows_have_uid Callbacks false Sample.noParams [])
           _ 0 _ (Sample.found Sample.twentyRows true) H1).
Defined.
